(** * dm-data-relationship-simplifier: the relationship simplifier and the
      anonymizer of [src/main.py], embedded and verified.

    The document is the tree that [json.load] returns.  Such a tree shares no
    object between two positions, so the in-place updates of [main.py]
    ([data['relationships'] = ...], [record[key] = ...]) are rendered as
    functional updates of the tree at the position that is assigned. *)

From Stdlib Require Import List String Ascii ZArith QArith Bool Lia.
Import ListNotations.

#[local] Set Warnings "-register-all".

Local Open Scope Z_scope.
Local Open Scope string_scope.
Local Open Scope list_scope.

(** ** Values *)

(** A Python [float]: a finite double is a rational number; [json.load] also
    accepts [Infinity], [-Infinity] and [NaN], each decoded to one shared
    object of [json.decoder]. *)
Inductive pyfloat : Type :=
| FFinite (q : Q)
| FInf (negative : bool)
| FNaN.

(** What [json.load] builds.  A Python [dict] keeps its keys in insertion
    order, and the order decides in which order the generators are drawn from:
    a dict is an association list (with pairwise different keys, [dict_wf]). *)
Inductive json : Type :=
| JNull
| JBool (b : bool)
| JInt (n : Z)
| JFloat (f : pyfloat)
| JStr (s : string)
| JList (l : list json)
| JDict (d : list (string * json)).

Definition dict : Type := list (string * json).

Definition type_name (v : json) : string :=
  match v with
  | JNull => "NoneType"
  | JBool _ => "bool"
  | JInt _ => "int"
  | JFloat _ => "float"
  | JStr _ => "str"
  | JList _ => "list"
  | JDict _ => "dict"
  end.

(** [isinstance(v, dict)], [isinstance(v, str)]. *)
Definition is_dict (v : json) : bool :=
  match v with JDict _ => true | _ => false end.

Definition is_str (v : json) : bool :=
  match v with JStr _ => true | _ => false end.

(** [isinstance(v, int)]: in Python [bool] is a subclass of [int], so the
    test also holds of [True] and [False]. *)
Definition is_int (v : json) : bool :=
  match v with JInt _ | JBool _ => true | _ => false end.

(** ** Dictionaries *)

Fixpoint dict_get (k : string) (d : dict) : option json :=
  match d with
  | [] => None
  | (k', v) :: d' => if String.eqb k' k then Some v else dict_get k d'
  end.

(** [d[k] = v]: an existing key keeps its position, a new one goes last. *)
Fixpoint dict_set (k : string) (v : json) (d : dict) : dict :=
  match d with
  | [] => [(k, v)]
  | (k', v') :: d' =>
      if String.eqb k' k then (k', v) :: d' else (k', v') :: dict_set k v d'
  end.

Definition dict_keys (d : dict) : list string := map fst d.

Fixpoint keys_distinct (ks : list string) : bool :=
  match ks with
  | [] => true
  | k :: ks' => (negb (existsb (String.eqb k) ks') && keys_distinct ks')%bool
  end.

(** No key occurs twice, as in every Python dict. *)
Definition dict_wf (d : dict) : bool := keys_distinct (dict_keys d).

(** ** Strings *)

Definition lower_ascii (c : ascii) : ascii :=
  let n := nat_of_ascii c in
  if (Nat.leb 65 n && Nat.leb n 90)%bool then ascii_of_nat (n + 32) else c.

(** [s.lower()], on the ASCII letters; the five keywords the anonymizer looks
    for are ASCII. *)
Fixpoint lower (s : string) : string :=
  match s with
  | EmptyString => EmptyString
  | String c s' => String (lower_ascii c) (lower s')
  end.

(** [needle in hay] on strings. *)
Fixpoint contains (needle hay : string) : bool :=
  (prefix needle hay
   || match hay with
      | EmptyString => false
      | String _ hay' => contains needle hay'
      end)%bool.

(** ** Exceptions and results *)

Inductive type_error : Type :=
| NotIterable (ty : string)      (* 'ty' object is not iterable *)
| Unhashable (ty : string)       (* unhashable type: 'ty' *)
| BadIndex (ty : string)         (* ty indices must be integers *)
| NotContainer (ty : string).    (* argument of type 'ty' is not iterable *)

Inductive exn : Type :=
| ValueError (msg : string)
| TypeError (why : type_error)
| SystemExit (code : Z).

Inductive result (A : Type) : Type :=
| Ok (a : A)
| Raise (e : exn).

Arguments Ok {A} a.
Arguments Raise {A} e.

(** ** Equality and hashing of the members of a set *)

Inductive pynum : Type :=
| NumQ (q : Q)
| NumInf (negative : bool)
| NumNaN.

(** The numeric value of a number: [True == 1 == 1.0]. *)
Definition as_num (v : json) : option pynum :=
  match v with
  | JBool b => Some (NumQ (inject_Z (if b then 1 else 0)))
  | JInt n => Some (NumQ (inject_Z n))
  | JFloat (FFinite q) => Some (NumQ q)
  | JFloat (FInf s) => Some (NumInf s)
  | JFloat FNaN => Some NumNaN
  | _ => None
  end.

(** Numbers are compared by value.  The only [NaN] of a loaded document is the
    object [json.decoder.NaN], and a container compares by identity first. *)
Definition num_eqb (x y : pynum) : bool :=
  match x, y with
  | NumQ p, NumQ q => Qeq_bool p q
  | NumInf s, NumInf t => Bool.eqb s t
  | NumNaN, NumNaN => true
  | _, _ => false
  end.

(** [a == b] for two hashable values of a document. *)
Definition py_eqb (a b : json) : bool :=
  match a, b with
  | JNull, JNull => true
  | JStr s, JStr t => String.eqb s t
  | _, _ =>
      match as_num a, as_num b with
      | Some x, Some y => num_eqb x y
      | _, _ => false
      end
  end.

(** [t == u] for two tuples: same length, equal item by item. *)
Fixpoint tuple_eqb (t u : list json) : bool :=
  match t, u with
  | [], [] => true
  | a :: t', b :: u' => (py_eqb a b && tuple_eqb t' u')%bool
  | _, _ => false
  end.

(** [tuple(r)]: a list gives its items, a string its characters, a dict its
    keys; nothing else is iterable. *)
Definition py_tuple (r : json) : result (list json) :=
  match r with
  | JList l => Ok l
  | JStr s => Ok (map (fun c => JStr (String c EmptyString)) (list_ascii_of_string s))
  | JDict d => Ok (map (fun kv => JStr (fst kv)) d)
  | _ => Raise (TypeError (NotIterable (type_name r)))
  end.

Definition hashable (v : json) : bool :=
  match v with JList _ | JDict _ => false | _ => true end.

(** [hash(t)] for a tuple [t] hashes the items from the left and raises at the
    first list or dict. *)
Fixpoint hash_tuple (t : list json) : result unit :=
  match t with
  | [] => Ok tt
  | v :: t' =>
      if hashable v then hash_tuple t' else Raise (TypeError (Unhashable (type_name v)))
  end.

(** [t in seen], once [t] has been hashed: some member equals [t]. *)
Definition set_contains (seen : list (list json)) (t : list json) : bool :=
  existsb (tuple_eqb t) seen.

(** The comprehension
    [[r for r in rs if tuple(r) not in seen and not seen.add(tuple(r))]]:
    [seen.add] returns [None], so an entry whose tuple is new is kept and its
    tuple recorded. *)
Fixpoint remove_duplicates (seen : list (list json)) (rs : list json)
  : result (list json) :=
  match rs with
  | [] => Ok []
  | r :: rs' =>
      match py_tuple r with
      | Raise e => Raise e
      | Ok t =>
          match hash_tuple t with
          | Raise e => Raise e
          | Ok _ =>
              if set_contains seen t then remove_duplicates seen rs'
              else
                match remove_duplicates (t :: seen) rs' with
                | Raise e => Raise e
                | Ok kept => Ok (r :: kept)
                end
          end
      end
  end.

(** ** The generators the program draws from

    [random] and [faker] are libraries: their generators are taken as a
    parameter, with what their documentation promises of [randint] and of
    [uuid4]. *)

Definition is_hex (c : ascii) : bool :=
  let n := nat_of_ascii c in
  ((Nat.leb 48 n && Nat.leb n 57) || (Nat.leb 97 n && Nat.leb n 102))%bool.

Definition is_dash (c : ascii) : bool := Ascii.eqb c "-"%char.

(** The text form of a UUID: 8-4-4-4-12 lower-case hexadecimal digits. *)
Definition uuid_format (s : string) : bool :=
  let cs := list_ascii_of_string s in
  (Nat.eqb (List.length cs) 36
   && forallb is_hex (firstn 8 cs)
   && forallb is_dash (firstn 1 (skipn 8 cs))
   && forallb is_hex (firstn 4 (skipn 9 cs))
   && forallb is_dash (firstn 1 (skipn 13 cs))
   && forallb is_hex (firstn 4 (skipn 14 cs))
   && forallb is_dash (firstn 1 (skipn 18 cs))
   && forallb is_hex (firstn 4 (skipn 19 cs))
   && forallb is_dash (firstn 1 (skipn 23 cs))
   && forallb is_hex (firstn 12 (skipn 24 cs)))%bool.

Record Generators : Type := {
  rng : Type;                               (* state of the generator of module random *)
  fgen : Type;                              (* state of the generator shared by Faker *)
  entropy : Type;                           (* what the operating system hands out *)
  random_seed : Z -> rng;                   (* random.seed(n) *)
  random_random : rng -> Q * rng;           (* random.random() *)
  random_randint : Z -> Z -> rng -> Z * rng;  (* random.randint(a, b) *)
  Faker_seed_int : Z -> fgen;               (* Faker.seed(n) *)
  Faker_seed_os : entropy -> fgen * entropy;  (* Faker.seed(None) *)
  fake_name : fgen -> string * fgen;
  fake_email : fgen -> string * fgen;
  fake_phone_number : fgen -> string * fgen;
  fake_address : fgen -> string * fgen;
  fake_city : fgen -> string * fgen;
  fake_word : fgen -> string * fgen;
  fake_uuid4 : fgen -> string * fgen;
  randint_range : forall a b g, a <= b -> a <= fst (random_randint a b g) <= b;
  uuid4_format : forall g, uuid_format (fst (fake_uuid4 g)) = true
}.

(** The literal [0.2] is the double 3602879701896397 / 2^54. *)
Definition float_0_2 : Q := Qmake 3602879701896397 (2 ^ 54).

(** ** The program *)

Module Main.
Section Program.

Context (G : Generators).

(** The state of the process that the functions read and write: the two
    generators, and the entropy of the operating system.  A process starts
    with [w_random] seeded from that entropy, not from [--seed]. *)
Record world : Type := {
  w_random : rng G;
  w_faker : fgen G;
  w_os : entropy G
}.

(** A computation reads and writes the world, and returns or raises. *)
Definition M (A : Type) : Type := world -> result A * world.

Definition ret {A : Type} (a : A) : M A := fun w => (Ok a, w).

Definition raise {A : Type} (e : exn) : M A := fun w => (Raise e, w).

Definition bind {A B : Type} (m : M A) (k : A -> M B) : M B :=
  fun w =>
    match m w with
    | (Ok a, w') => k a w'
    | (Raise e, w') => (Raise e, w')
    end.

Notation "x <- m ;; k" := (bind m (fun x => k))
  (at level 61, m at next level, right associativity).

Definition lift {A : Type} (r : result A) : M A := fun w => (r, w).

(** Drawing from the generator of module [random]. *)
Definition random_call {A : Type} (f : rng G -> A * rng G) : M A :=
  fun w =>
    let (a, g) := f (w_random w) in
    (Ok a, {| w_random := g; w_faker := w_faker w; w_os := w_os w |}).

(** Drawing from the generator of [Faker]. *)
Definition fake {A : Type} (f : fgen G -> A * fgen G) : M A :=
  fun w =>
    let (a, g) := f (w_faker w) in
    (Ok a, {| w_random := w_random w; w_faker := g; w_os := w_os w |}).

(** [if seed is not None: random.seed(seed)] *)
Definition seed_random (seed : option Z) : M unit :=
  fun w =>
    match seed with
    | Some n =>
        (Ok tt, {| w_random := random_seed G n; w_faker := w_faker w; w_os := w_os w |})
    | None => (Ok tt, w)
    end.

(** [Faker.seed(seed)] *)
Definition seed_faker (seed : option Z) : M unit :=
  fun w =>
    match seed with
    | Some n =>
        (Ok tt, {| w_random := w_random w; w_faker := Faker_seed_int G n; w_os := w_os w |})
    | None =>
        let (g, os) := Faker_seed_os G (w_os w) in
        (Ok tt, {| w_random := w_random w; w_faker := g; w_os := os |})
    end.

(** *** simplify_relationships *)

(** [[r for r in rs if random.random() > 0.2]] *)
Fixpoint random_retention (rs : list json) : M (list json) :=
  match rs with
  | [] => ret []
  | r :: rs' =>
      x <- random_call (random_random G) ;;
      kept <- random_retention rs' ;;
      ret (if Qle_bool x float_0_2 then kept else r :: kept)
  end.

Definition simplify_relationships
    (data : json) (remove_redundant remove_non_essential : bool) : M json :=
  match data with
  | JDict d =>
      match dict_get "relationships" d with
      | None => ret data
      | Some (JList relationships) =>
          let simplified_relationships := relationships in
          simplified_relationships <-
            (if remove_redundant
             then lift (remove_duplicates [] simplified_relationships)
             else ret simplified_relationships) ;;
          simplified_relationships <-
            (if remove_non_essential
             then random_retention simplified_relationships
             else ret simplified_relationships) ;;
          ret (JDict (dict_set "relationships" (JList simplified_relationships) d))
      | Some _ => raise (ValueError "Relationships must be a list.")
      end
  | _ => raise (ValueError "Input data must be a dictionary.")
  end.

(** *** anonymize_data *)

(** The body of [for key, value in record.items()], on the record being
    rewritten.  In the source, line 149 ([if isinstance(value, str):], medium
    level) stands one column deeper than line 162 ([elif isinstance(value,
    int):]); the two are read here as one conditional, the only nesting those
    lines admit. *)
Definition anonymize_pair (level key : string) (value : json) (record : dict)
  : M dict :=
  if String.eqb level "low" then
    if (is_str value && contains "name" (lower key))%bool then
      s <- fake (fake_name G) ;; ret (dict_set key (JStr s) record)
    else if (is_str value && contains "email" (lower key))%bool then
      s <- fake (fake_email G) ;; ret (dict_set key (JStr s) record)
    else if (is_str value && contains "phone" (lower key))%bool then
      s <- fake (fake_phone_number G) ;; ret (dict_set key (JStr s) record)
    else ret record
  else if String.eqb level "medium" then
    if is_str value then
      if contains "name" (lower key) then
        s <- fake (fake_name G) ;; ret (dict_set key (JStr s) record)
      else if contains "email" (lower key) then
        s <- fake (fake_email G) ;; ret (dict_set key (JStr s) record)
      else if contains "phone" (lower key) then
        s <- fake (fake_phone_number G) ;; ret (dict_set key (JStr s) record)
      else if contains "address" (lower key) then
        s <- fake (fake_address G) ;; ret (dict_set key (JStr s) record)
      else if contains "city" (lower key) then
        s <- fake (fake_city G) ;; ret (dict_set key (JStr s) record)
      else
        s <- fake (fake_word G) ;; ret (dict_set key (JStr s) record)
    else if is_int value then
      n <- random_call (random_randint G 0 100) ;; ret (dict_set key (JInt n) record)
    else ret record
  else if String.eqb level "high" then
    s <- fake (fake_uuid4 G) ;; ret (dict_set key (JStr s) record)
  else ret record.

(** [for key, value in record.items(): ...].  A key is assigned on its own
    visit only and no key is added, so each visit reads the value that was
    loaded: [items] is the list of pairs of the record as it was given. *)
Fixpoint for_items (level : string) (items : list (string * json)) (record : dict)
  : M dict :=
  match items with
  | [] => ret record
  | (key, value) :: items' =>
      record' <- anonymize_pair level key value record ;;
      for_items level items' record'
  end.

Definition anonymize_record (level : string) (record : json) : M json :=
  match record with
  | JDict d => d' <- for_items level d d ;; ret (JDict d')
  | _ => raise (ValueError "Each record in the dataset should be a dictionary.")
  end.

(** [for record in dataset: ...] *)
Fixpoint for_records (level : string) (dataset : list json) : M (list json) :=
  match dataset with
  | [] => ret []
  | record :: dataset' =>
      record' <- anonymize_record level record ;;
      rest <- for_records level dataset' ;;
      ret (record' :: rest)
  end.

Definition anonymize_dataset (level : string) (dataset : json) : M json :=
  match dataset with
  | JList records => records' <- for_records level records ;; ret (JList records')
  | _ => raise (ValueError "Each dataset should be a list.")
  end.

(** [for dataset in datasets: ...] *)
Fixpoint for_datasets (level : string) (datasets : list json) : M (list json) :=
  match datasets with
  | [] => ret []
  | dataset :: datasets' =>
      dataset' <- anonymize_dataset level dataset ;;
      rest <- for_datasets level datasets' ;;
      ret (dataset' :: rest)
  end.

(** ['datasets' not in data] followed by [data['datasets']].  [main] hands over
    a dict; on a list or a string [in] is a membership or substring test and
    the subscript then fails, and nothing else supports [in]. *)
Definition lookup_datasets (data : json) : result (option json) :=
  match data with
  | JDict d => Ok (dict_get "datasets" d)
  | JList l =>
      if existsb (py_eqb (JStr "datasets")) l
      then Raise (TypeError (BadIndex "list")) else Ok None
  | JStr s =>
      if contains "datasets" s
      then Raise (TypeError (BadIndex "string")) else Ok None
  | _ => Raise (TypeError (NotContainer (type_name data)))
  end.

Definition anonymize_data (data : json) (level : string) (seed : option Z) : M json :=
  _ <- seed_random seed ;;
  _ <- seed_faker seed ;;
  found <- lift (lookup_datasets data) ;;
  match found with
  | None => ret data
  | Some (JList datasets) =>
      datasets' <- for_datasets level datasets ;;
      match data with
      | JDict d => ret (JDict (dict_set "datasets" (JList datasets') d))
      | _ => ret data
      end
  | Some _ => raise (ValueError "Datasets must be a list.")
  end.

(** *** main, between [load_data] and [save_data] *)

Record args : Type := {
  remove_redundant : bool;
  remove_non_essential : bool;
  anonymize : bool;
  anonymization_level : string;
  seed : option Z
}.

Definition level_recognized (level : string) : bool :=
  (String.eqb level "low" || String.eqb level "medium" || String.eqb level "high")%bool.

(** What [main] passes to [save_data], from what [load_data] returned; an
    exception of a stage is logged by [main], which then exits with status 1
    and saves nothing. *)
Definition main (a : args) (data : json) : M json :=
  if (anonymize a && negb (level_recognized (anonymization_level a)))%bool
  then raise (SystemExit 1)
  else
    simplified_data <-
      simplify_relationships data (remove_redundant a) (remove_non_essential a) ;;
    if anonymize a
    then anonymize_data simplified_data (anonymization_level a) (seed a)
    else ret simplified_data.

End Program.
End Main.

(** ** What the specification says, in its words *)

(** Two entries are the same relationship when their tuples are equal. *)
Definition same_tuple (r r' : json) : bool :=
  match py_tuple r, py_tuple r' with
  | Ok t, Ok t' => tuple_eqb t t'
  | _, _ => false
  end.

(** The first occurrences of a list of entries, in their order: the entry at
    index [i] stays exactly when no entry before [i] has the same tuple. *)
Definition first_occurrences (rs : list json) : list json :=
  map snd
    (filter (fun ir => negb (existsb (same_tuple (snd ir)) (firstn (fst ir) rs)))
            (combine (seq 0 (List.length rs)) rs)).

(** The same, entry by entry: [earlier] holds the entries already passed. *)
Fixpoint first_after (earlier rs : list json) : list json :=
  match rs with
  | [] => []
  | r :: rs' =>
      if existsb (same_tuple r) earlier
      then first_after (earlier ++ [r]) rs'
      else r :: first_after (earlier ++ [r]) rs'
  end.

(** An entry that [tuple] accepts and whose tuple can be a member of a set. *)
Definition entry_ok (r : json) : bool :=
  match py_tuple r with
  | Ok t => forallb hashable t
  | Raise _ => false
  end.

(** A sequence of sequences of mappings. *)
Definition valid_datasets (v : json) : bool :=
  match v with
  | JList datasets =>
      forallb (fun dataset =>
                 match dataset with
                 | JList records => forallb is_dict records
                 | _ => false
                 end) datasets
  | _ => false
  end.

(** Every record of every dataset is a dict as Python has them. *)
Definition records_wf (v : json) : bool :=
  match v with
  | JList datasets =>
      forallb (fun dataset =>
                 match dataset with
                 | JList records =>
                     forallb (fun record =>
                                match record with
                                | JDict d => dict_wf d
                                | _ => true
                                end) records
                 | _ => true
                 end) datasets
  | _ => true
  end.

(** A record that is a dict as Python has them, a dataset of such records. *)
Definition record_ok (record : json) : bool :=
  match record with JDict d => dict_wf d | _ => false end.

Definition dataset_ok (dataset : json) : bool :=
  match dataset with JList records => forallb record_ok records | _ => false end.

(** Two values of [datasets] with the same datasets, the same records and the
    same keys at the same places, whose values at each key are related by [R]. *)
Section Pairwise.

Variable R : string -> json -> json -> Prop.

Definition pair_rel (kv kv' : string * json) : Prop :=
  fst kv' = fst kv /\ R (fst kv) (snd kv) (snd kv').

Definition record_rel (r r' : json) : Prop :=
  exists d d', r = JDict d /\ r' = JDict d' /\ Forall2 pair_rel d d'.

Definition dataset_rel (ds ds' : json) : Prop :=
  exists rs rs', ds = JList rs /\ ds' = JList rs' /\ Forall2 record_rel rs rs'.

Definition datasets_rel (v v' : json) : Prop :=
  exists dss dss', v = JList dss /\ v' = JList dss' /\ Forall2 dataset_rel dss dss'.

End Pairwise.

(** [record[key] = value'] when a value is assigned, nothing otherwise. *)
Definition assign (key : string) (o : option json) (record : dict) : dict :=
  match o with
  | Some value' => dict_set key value' record
  | None => record
  end.

(** *** What each level leaves under a key

    [value] is what was loaded under [key], [value'] what the anonymizer
    leaves there; [g] is the state of a generator at the time of the draw. *)
Section Levels.

Context (G : Generators).

(** low: a text under a key that names a name, an email or a phone (looked
    for in this order) becomes the synthetic text of that kind; everything
    else stays. *)
Definition low_rel (key : string) (value value' : json) : Prop :=
  (is_str value = false -> value' = value)
  /\ (is_str value = true ->
      contains "name" (lower key) = false ->
      contains "email" (lower key) = false ->
      contains "phone" (lower key) = false -> value' = value)
  /\ (is_str value = true ->
      contains "name" (lower key) = true ->
      exists g, value' = JStr (fst (fake_name G g)))
  /\ (is_str value = true ->
      contains "name" (lower key) = false ->
      contains "email" (lower key) = true ->
      exists g, value' = JStr (fst (fake_email G g)))
  /\ (is_str value = true ->
      contains "name" (lower key) = false ->
      contains "email" (lower key) = false ->
      contains "phone" (lower key) = true ->
      exists g, value' = JStr (fst (fake_phone_number G g))).

(** medium: a text becomes a synthetic text; whatever [isinstance(_, int)]
    accepts, an integer or a boolean, becomes a drawn integer of [0, 100];
    the rest (null, floats, lists, dicts) stays. *)
Definition medium_rel (key : string) (value value' : json) : Prop :=
  (is_str value = true -> exists s, value' = JStr s)
  /\ (is_str value = false -> is_int value = true ->
      exists n, value' = JInt n
                /\ (exists g, n = fst (random_randint G 0 100 g))
                /\ 0 <= n <= 100)
  /\ (is_str value = false -> is_int value = false -> value' = value).

(** high: every value becomes a text drawn from [uuid4]. *)
Definition high_rel (key : string) (value value' : json) : Prop :=
  exists g, value' = JStr (fst (fake_uuid4 G g))
            /\ uuid_format (fst (fake_uuid4 G g)) = true.

End Levels.

(** *** The frame of the anonymizer *)

(** Same datasets, same records, same keys at the same places; the values
    under the keys are free. *)
Definition same_shape (v v' : json) : Prop := datasets_rel (fun _ _ _ => True) v v'.

(** A document that passes the checks of the anonymizer. *)
Definition document_ok (d : dict) : bool :=
  match dict_get "datasets" d with
  | None => true
  | Some v => (valid_datasets v && records_wf v)%bool
  end.

(** [d'] is [d] but for the values inside the records of [datasets]. *)
Definition doc_frame (d d' : dict) : Prop :=
  dict_keys d' = dict_keys d
  /\ (forall k, k <> "datasets" -> dict_get k d' = dict_get k d)
  /\ match dict_get "datasets" d with
     | None => dict_get "datasets" d' = None
     | Some v => exists v', dict_get "datasets" d' = Some v' /\ same_shape v v'
     end.

(** The value of [relationships] in what a run hands over, if it hands over a
    document. *)
Definition retained (r : result json) : option json :=
  match r with
  | Ok (JDict d) => dict_get "relationships" d
  | _ => None
  end.

(** ** A small instance of the generators

    Linear congruential generators, enough to run the program on examples. *)
Module Toy.

Definition step (g : Z) : Z := (g * 1103515245 + 12345) mod 2147483648.

Definition toy_random (g : Z) : Q * Z := (Qmake (g mod 10) 10, step g).

Definition toy_randint (a b g : Z) : Z * Z := (a + g mod (b - a + 1), step g).

Definition hex_digit (n : nat) : ascii :=
  match n with
  | 0%nat => "0" | 1%nat => "1" | 2%nat => "2" | 3%nat => "3"
  | 4%nat => "4" | 5%nat => "5" | 6%nat => "6" | 7%nat => "7"
  | 8%nat => "8" | 9%nat => "9" | 10%nat => "a" | 11%nat => "b"
  | 12%nat => "c" | 13%nat => "d" | 14%nat => "e" | _ => "f"
  end%char.

Definition rep (n : nat) (c : ascii) : string := string_of_list_ascii (repeat c n).

Definition toy_uuid4 (g : Z) : string * Z :=
  let h := hex_digit (Z.to_nat (g mod 16)) in
  ((rep 8 h ++ "-" ++ rep 4 h ++ "-4" ++ rep 3 h ++ "-8" ++ rep 3 h ++ "-" ++ rep 12 h)%string,
   step g).

Definition constant (s : string) (g : Z) : string * Z := (s, step g).

Lemma toy_randint_range (a b g : Z) : a <= b -> a <= fst (toy_randint a b g) <= b.
Proof.
  intros Hab. unfold toy_randint. simpl.
  assert (H : 0 <= g mod (b - a + 1) < b - a + 1) by (apply Z.mod_pos_bound; lia).
  lia.
Qed.

Lemma toy_uuid4_format (g : Z) : uuid_format (fst (toy_uuid4 g)) = true.
Proof.
  unfold toy_uuid4. generalize (Z.to_nat (g mod 16)). intros n.
  do 15 (destruct n as [|n]; [reflexivity|]). reflexivity.
Qed.

Definition G : Generators := {|
  rng := Z;
  fgen := Z;
  entropy := Z;
  random_seed := fun n => n;
  random_random := toy_random;
  random_randint := toy_randint;
  Faker_seed_int := fun n => n;
  Faker_seed_os := fun e => (e, step e);
  fake_name := constant "Jane Doe";
  fake_email := constant "jane@example.org";
  fake_phone_number := constant "555-0100";
  fake_address := constant "1 Main Street";
  fake_city := constant "Springfield";
  fake_word := constant "word";
  fake_uuid4 := toy_uuid4;
  randint_range := toy_randint_range;
  uuid4_format := toy_uuid4_format
|}.

Definition w0 (g : Z) : Main.world G :=
  Main.Build_world G g 7 11.

End Toy.

(** ** Notions and examples used by the proofs *)

(** The set [seen] holds a tuple equal to [t] exactly when an entry of
    [earlier] has a tuple equal to [t]. *)
Definition seen_covers (seen : list (list json)) (earlier : list json) : Prop :=
  forall r t, py_tuple r = Ok t ->
    set_contains seen t = existsb (same_tuple r) earlier.

Definition example_relationships : list json :=
  [JList [JStr "a"; JStr "b"]; JList [JStr "a"; JStr "b"]; JList [JStr "c"; JStr "d"]].

Definition example_document : dict :=
  [("relationships", JList example_relationships); ("datasets", JList [])].

(** Each visit of a pair assigns at most one new value to the key it visits;
    [R] relates the value that was loaded to the value left under the key. *)
Definition pair_post (G : Generators) (level : string)
    (R : string -> json -> json -> Prop) : Prop :=
  forall key value record w, exists o w',
    Main.anonymize_pair G level key value record w = (Ok (assign key o record), w')
    /\ R key value (match o with Some value' => value' | None => value end).

Ltac draw f g s g' E := destruct (f g) as [s g'] eqn:E.

Ltac assigned v :=
  eexists (Some v), _; split; [reflexivity|]; simpl.

Ltac untouched :=
  eexists None, _; split; [reflexivity|]; simpl.

Definition example_record : dict :=
  [("user_name", JStr "Alice"); ("age", JInt 30); ("active", JBool true);
   ("score", JFloat (FFinite (Qmake 1 2))); ("Home_City", JStr "Paris");
   ("note", JStr "n"); ("tags", JList [JStr "x"])].

Definition example_datasets : json := JList [JList [JDict example_record]].

Definition with_seed (a : Main.args) (s : option Z) : Main.args :=
  Main.Build_args (Main.remove_redundant a) (Main.remove_non_essential a)
    (Main.anonymize a) (Main.anonymization_level a) s.


(** [kept] is [rs] with some entries left out, the others in their order. *)
Inductive subseq {A : Type} : list A -> list A -> Prop :=
| subseq_nil : subseq [] []
| subseq_keep (x : A) (kept rs : list A) : subseq kept rs -> subseq (x :: kept) (x :: rs)
| subseq_drop (x : A) (kept rs : list A) : subseq kept rs -> subseq kept (x :: rs).

(** No entry of the list has the tuple of an entry before it. *)
Fixpoint tuples_distinct (rs : list json) : Prop :=
  match rs with
  | [] => True
  | r :: rs' => (forall r', In r' rs' -> same_tuple r r' = false) /\ tuples_distinct rs'
  end.

(** The world after [random.seed(seed)] (when there is a seed) and
    [Faker.seed(seed)]. *)
Definition seeded (G : Generators) (seed : option Z) (w : Main.world G) : Main.world G :=
  match seed with
  | Some n => Main.Build_world G (random_seed G n) (Faker_seed_int G n) (Main.w_os G w)
  | None =>
      Main.Build_world G (Main.w_random G w)
        (fst (Faker_seed_os G (Main.w_os G w))) (snd (Faker_seed_os G (Main.w_os G w)))
  end.

(** Two worlds with the two generators in the same states. *)
Definition same_generators (G : Generators) (w1 w2 : Main.world G) : Prop :=
  Main.w_random G w1 = Main.w_random G w2 /\ Main.w_faker G w1 = Main.w_faker G w2.

(** A computation that reads nothing of the world but the two generators. *)
Definition generators_only (G : Generators) {A : Type} (m : Main.M G A) : Prop :=
  forall w1 w2, same_generators G w1 w2 ->
    fst (m w1) = fst (m w2) /\ same_generators G (snd (m w1)) (snd (m w2)).

(** The successive results of [n] calls of [random.random()] from state [g]. *)
Fixpoint random_draws (G : Generators) (n : nat) (g : rng G) : list Q :=
  match n with
  | O => []
  | S n' => fst (random_random G g) :: random_draws G n' (snd (random_random G g))
  end.

(** The state of the generator after [n] calls of [random.random()]. *)
Fixpoint after_draws (G : Generators) (n : nat) (g : rng G) : rng G :=
  match n with
  | O => g
  | S n' => after_draws G n' (snd (random_random G g))
  end.

(** medium, for a text: the synthetic text of the first kind that the
    lower-cased key names, in the order name, email, phone, address, city, and
    a synthetic word when it names none. *)
Definition medium_text_rel (G : Generators) (key : string) (value value' : json) : Prop :=
  is_str value = true ->
  let k := lower key in
  exists g,
    value' = JStr (fst (
      if contains "name" k then fake_name G g
      else if contains "email" k then fake_email G g
      else if contains "phone" k then fake_phone_number G g
      else if contains "address" k then fake_address G g
      else if contains "city" k then fake_city G g
      else fake_word G g)).

(** [anonymize_data] once the generators are seeded: from the test for the
    [datasets] key on. *)
Definition anonymize_seeded (G : Generators) (data : json) (level : string)
  : Main.M G json :=
  Main.bind G (Main.lift G (Main.lookup_datasets data))
    (fun found =>
       match found with
       | None => Main.ret G data
       | Some (JList datasets) =>
           Main.bind G (Main.for_datasets G level datasets)
             (fun datasets' =>
                match data with
                | JDict d => Main.ret G (JDict (dict_set "datasets" (JList datasets') d))
                | _ => Main.ret G data
                end)
       | Some _ => Main.raise G (ValueError "Datasets must be a list.")
       end).

(** ** Equality of tuples is an equivalence *)

Lemma num_eqb_refl (x : pynum) : num_eqb x x = true.
Proof.
  destruct x as [q|s|]; simpl.
  - apply Qeq_bool_iff, Qeq_refl.
  - apply Bool.eqb_reflx.
  - reflexivity.
Qed.

Lemma num_eqb_sym (x y : pynum) : num_eqb x y = true -> num_eqb y x = true.
Proof.
  destruct x as [p|s|], y as [q|t|]; simpl; try discriminate; intros H.
  - apply Qeq_bool_iff, Qeq_sym, Qeq_bool_iff, H.
  - apply Bool.eqb_prop in H. subst t. apply Bool.eqb_reflx.
  - reflexivity.
Qed.

Lemma num_eqb_trans (x y z : pynum) :
  num_eqb x y = true -> num_eqb y z = true -> num_eqb x z = true.
Proof.
  destruct x as [p|s|], y as [q|t|], z as [r|u|]; simpl; try discriminate; intros H1 H2.
  - apply Qeq_bool_iff. apply Qeq_bool_iff in H1, H2. exact (Qeq_trans _ _ _ H1 H2).
  - apply Bool.eqb_prop in H1, H2. subst. apply Bool.eqb_reflx.
  - reflexivity.
Qed.

(** [py_eqb] compares the two strings, the two [None], or the two numbers. *)
Lemma py_eqb_cases (a b : json) :
  py_eqb a b = true ->
  (a = JNull /\ b = JNull)
  \/ (exists s, a = JStr s /\ b = JStr s)
  \/ (exists x y, as_num a = Some x /\ as_num b = Some y /\ num_eqb x y = true).
Proof.
  destruct a as [|ba|na|fa|sa|la|da], b as [|bb|nb|fb|sb|lb|db];
    simpl; try discriminate; intros H;
    try (left; split; reflexivity);
    try (right; left; apply String.eqb_eq in H; subst; eexists; split; reflexivity);
    right; right;
    repeat match goal with f : pyfloat |- _ => destruct f end;
    simpl in *; try discriminate;
    do 2 eexists; (split; [reflexivity | split; [reflexivity | exact H]]).
Qed.

Lemma py_eqb_num (a b : json) (x y : pynum) :
  as_num a = Some x -> as_num b = Some y -> py_eqb a b = num_eqb x y.
Proof.
  intros Ha Hb. unfold py_eqb. rewrite Ha, Hb.
  destruct a; try discriminate; destruct b; try discriminate; reflexivity.
Qed.

Lemma py_eqb_trans (a b c : json) :
  py_eqb a b = true -> py_eqb b c = true -> py_eqb a c = true.
Proof.
  intros H1 H2.
  destruct (py_eqb_cases _ _ H1) as [[-> ->] | [[s [-> ->]] | [x [y [Ha [Hb Hxy]]]]]];
    try exact H2.
  destruct (py_eqb_cases _ _ H2) as [[-> _] | [[s [-> _]] | [y' [z [Hb' [Hc Hyz]]]]]];
    try discriminate.
  rewrite Hb in Hb'. injection Hb' as <-.
  rewrite (py_eqb_num _ _ _ _ Ha Hc). exact (num_eqb_trans _ _ _ Hxy Hyz).
Qed.

Lemma py_eqb_sym (a b : json) : py_eqb a b = true -> py_eqb b a = true.
Proof.
  intros H.
  destruct (py_eqb_cases _ _ H) as [[-> ->] | [[s [-> ->]] | [x [y [Ha [Hb Hxy]]]]]].
  - reflexivity.
  - simpl. apply String.eqb_refl.
  - rewrite (py_eqb_num _ _ _ _ Hb Ha). exact (num_eqb_sym _ _ Hxy).
Qed.

Lemma py_eqb_refl (a : json) : hashable a = true -> py_eqb a a = true.
Proof.
  destruct a as [|b|n|f|s|l|d]; simpl; try discriminate; intros _;
    try reflexivity; try apply String.eqb_refl;
    try (apply Qeq_bool_iff, Qeq_refl).
  destruct f; simpl; [apply Qeq_bool_iff, Qeq_refl | apply Bool.eqb_reflx | reflexivity].
Qed.

Lemma tuple_eqb_trans (t u v : list json) :
  tuple_eqb t u = true -> tuple_eqb u v = true -> tuple_eqb t v = true.
Proof.
  revert u v. induction t as [|a t IH]; intros [|b u] [|c v]; simpl; try discriminate; auto.
  intros H1 H2. apply andb_true_iff in H1, H2. destruct H1 as [Hab Htu], H2 as [Hbc Huv].
  apply andb_true_iff. split; [exact (py_eqb_trans _ _ _ Hab Hbc) | exact (IH _ _ Htu Huv)].
Qed.

Lemma tuple_eqb_sym (t u : list json) : tuple_eqb t u = true -> tuple_eqb u t = true.
Proof.
  revert u. induction t as [|a t IH]; intros [|b u]; simpl; try discriminate; auto.
  intros H. apply andb_true_iff in H. destruct H as [Hab Htu].
  apply andb_true_iff. split; [exact (py_eqb_sym _ _ Hab) | exact (IH _ Htu)].
Qed.

Lemma tuple_eqb_refl (t : list json) : forallb hashable t = true -> tuple_eqb t t = true.
Proof.
  induction t as [|a t IH]; simpl; [reflexivity|].
  intros H. apply andb_true_iff in H. destruct H as [Ha Ht].
  rewrite (py_eqb_refl _ Ha). exact (IH Ht).
Qed.

(** ** Deduplication *)

Lemma hash_tuple_ok (t : list json) : forallb hashable t = true -> hash_tuple t = Ok tt.
Proof.
  induction t as [|v t IH]; simpl; [reflexivity|].
  intros H. apply andb_true_iff in H. destruct H as [Hv Ht]. rewrite Hv. exact (IH Ht).
Qed.

Lemma hash_tuple_ok_inv (t : list json) (u : unit) :
  hash_tuple t = Ok u -> forallb hashable t = true.
Proof.
  induction t as [|v t IH]; simpl; [reflexivity|].
  destruct (hashable v); [exact IH | discriminate].
Qed.

Lemma entry_ok_tuple (r : json) :
  entry_ok r = true -> exists t, py_tuple r = Ok t /\ hash_tuple t = Ok tt.
Proof.
  unfold entry_ok. destruct (py_tuple r) as [t|e]; [|discriminate].
  intros H. exists t. split; [reflexivity | exact (hash_tuple_ok _ H)].
Qed.

Lemma same_tuple_trans (r1 r2 r3 : json) :
  same_tuple r1 r2 = true -> same_tuple r2 r3 = true -> same_tuple r1 r3 = true.
Proof.
  unfold same_tuple.
  destruct (py_tuple r1), (py_tuple r2), (py_tuple r3); try discriminate.
  apply tuple_eqb_trans.
Qed.

Lemma seen_covers_keep (seen : list (list json)) (earlier : list json) (r : json)
    (t : list json) :
  py_tuple r = Ok t -> seen_covers seen earlier ->
  seen_covers (t :: seen) (earlier ++ [r]).
Proof.
  intros Hr Hinv r0 t0 Hr0. unfold seen_covers, set_contains in *. simpl.
  rewrite existsb_app. simpl. rewrite (Hinv r0 t0 Hr0).
  assert (Hsame : same_tuple r0 r = tuple_eqb t0 t)
    by (unfold same_tuple; rewrite Hr0, Hr; reflexivity).
  rewrite Hsame.
  destruct (tuple_eqb t0 t), (existsb (same_tuple r0) earlier); reflexivity.
Qed.

Lemma seen_covers_skip (seen : list (list json)) (earlier : list json) (r : json)
    (t : list json) :
  py_tuple r = Ok t -> set_contains seen t = true -> seen_covers seen earlier ->
  seen_covers seen (earlier ++ [r]).
Proof.
  intros Hr Hin Hinv r0 t0 Hr0.
  rewrite existsb_app. simpl. rewrite <- (Hinv r0 t0 Hr0).
  destruct (same_tuple r0 r) eqn:Hsame.
  - rewrite orb_true_r. rewrite (Hinv r0 t0 Hr0).
    rewrite (Hinv r t Hr) in Hin. apply existsb_exists in Hin.
    destruct Hin as [r' [Hr' Hsame']].
    apply existsb_exists. exists r'. split; [exact Hr'|].
    exact (same_tuple_trans _ _ _ Hsame Hsame').
  - rewrite orb_false_r. reflexivity.
Qed.

Lemma remove_duplicates_first_after (rs : list json) :
  forallb entry_ok rs = true ->
  forall seen earlier, seen_covers seen earlier ->
    remove_duplicates seen rs = Ok (first_after earlier rs).
Proof.
  induction rs as [|r rs IH]; intros Hok seen earlier Hinv; simpl; [reflexivity|].
  simpl in Hok. apply andb_true_iff in Hok. destruct Hok as [Hr Hrs].
  destruct (entry_ok_tuple _ Hr) as [t [Ht Hh]]. rewrite Ht, Hh.
  rewrite <- (Hinv r t Ht).
  destruct (set_contains seen t) eqn:Hin.
  - apply (IH Hrs). exact (seen_covers_skip _ _ _ _ Ht Hin Hinv).
  - rewrite (IH Hrs (t :: seen) (earlier ++ [r]) (seen_covers_keep _ _ _ _ Ht Hinv)).
    reflexivity.
Qed.

Lemma first_after_indexed (rs earlier : list json) :
  first_after earlier rs =
  map snd
    (filter (fun ir => negb (existsb (same_tuple (snd ir))
                                     (firstn (fst ir) (earlier ++ rs))))
            (combine (seq (List.length earlier) (List.length rs)) rs)).
Proof.
  revert earlier. induction rs as [|r rs IH]; intros earlier; simpl; [reflexivity|].
  rewrite firstn_app, Nat.sub_diag, firstn_all. simpl. rewrite app_nil_r.
  rewrite (IH (earlier ++ [r])). rewrite length_app, Nat.add_comm. simpl.
  rewrite <- app_assoc. simpl.
  destruct (existsb (same_tuple r) earlier); reflexivity.
Qed.

Lemma first_after_nil (rs : list json) : first_after [] rs = first_occurrences rs.
Proof. rewrite first_after_indexed. reflexivity. Qed.

Lemma remove_duplicates_first_occurrences (rs : list json) :
  forallb entry_ok rs = true ->
  remove_duplicates [] rs = Ok (first_occurrences rs).
Proof.
  intros Hok. rewrite <- first_after_nil.
  apply (remove_duplicates_first_after rs Hok).
  intros r t _. reflexivity.
Qed.

(** What was kept once is kept again, by any set that holds no more. *)
Lemma remove_duplicates_again (rs : list json) :
  forall seen kept, remove_duplicates seen rs = Ok kept ->
  forall seen', (forall t, set_contains seen' t = true -> set_contains seen t = true) ->
    remove_duplicates seen' kept = Ok kept.
Proof.
  induction rs as [|r rs IH]; intros seen kept H seen' Hsub; simpl in H.
  - injection H as <-. reflexivity.
  - destruct (py_tuple r) as [t|e] eqn:Ht; [|discriminate].
    destruct (hash_tuple t) as [u|e] eqn:Hh; [|discriminate].
    destruct (set_contains seen t) eqn:Hin.
    + exact (IH _ _ H _ Hsub).
    + destruct (remove_duplicates (t :: seen) rs) as [kept'|e] eqn:Hrec; [|discriminate].
      injection H as <-. simpl. rewrite Ht, Hh.
      destruct (set_contains seen' t) eqn:Hin'.
      * rewrite (Hsub _ Hin') in Hin. discriminate.
      * rewrite (IH _ _ Hrec (t :: seen')); [reflexivity|].
        intros t0. unfold set_contains. simpl. intros H0.
        apply orb_true_iff in H0. apply orb_true_iff.
        destruct H0 as [H0|H0]; [left; exact H0 | right; exact (Hsub _ H0)].
Qed.

Lemma remove_duplicates_idempotent (rs kept : list json) :
  remove_duplicates [] rs = Ok kept -> remove_duplicates [] kept = Ok kept.
Proof.
  intros H. apply (remove_duplicates_again rs [] kept H). intros t Ht. exact Ht.
Qed.

(** ** Dictionary updates *)

Lemma dict_get_set_same (k : string) (v : json) (d : dict) :
  dict_get k (dict_set k v d) = Some v.
Proof.
  induction d as [|[k' v'] d IH]; simpl.
  - rewrite String.eqb_refl. reflexivity.
  - destruct (String.eqb k' k) eqn:E; simpl; rewrite E; [reflexivity | exact IH].
Qed.

Lemma dict_get_set_other (k k' : string) (v : json) (d : dict) :
  k <> k' -> dict_get k (dict_set k' v d) = dict_get k d.
Proof.
  intros Hne. induction d as [|[k0 v0] d IH]; simpl.
  - destruct (String.eqb k' k) eqn:E; [|reflexivity].
    apply String.eqb_eq in E. congruence.
  - destruct (String.eqb k0 k') eqn:E; simpl.
    + apply String.eqb_eq in E. subst k0.
      destruct (String.eqb k' k) eqn:E'; [|reflexivity].
      apply String.eqb_eq in E'. congruence.
    + rewrite IH. reflexivity.
Qed.

Lemma dict_set_set (k : string) (v v' : json) (d : dict) :
  dict_set k v (dict_set k v' d) = dict_set k v d.
Proof.
  induction d as [|[k0 v0] d IH]; simpl.
  - rewrite String.eqb_refl. reflexivity.
  - destruct (String.eqb k0 k) eqn:E; simpl; rewrite E; [reflexivity|].
    rewrite IH. reflexivity.
Qed.

Lemma dict_keys_set (k : string) (v v0 : json) (d : dict) :
  dict_get k d = Some v0 -> dict_keys (dict_set k v d) = dict_keys d.
Proof.
  unfold dict_keys. induction d as [|[k' v'] d IH]; simpl; [discriminate|].
  destruct (String.eqb k' k) eqn:E; simpl; [reflexivity|].
  intros H. rewrite (IH H). reflexivity.
Qed.

(** ** The relationship simplifier *)

(** C7.  A document without a [relationships] key comes back as it was given,
    whatever the two flags are, and no generator is touched. *)
Theorem simplify_relationships_without_key
    (G : Generators) (d : dict) (remove_redundant remove_non_essential : bool)
    (w : Main.world G) :
  dict_get "relationships" d = None ->
  Main.simplify_relationships G (JDict d) remove_redundant remove_non_essential w
  = (Ok (JDict d), w).
Proof.
  intros Hget. unfold Main.simplify_relationships. rewrite Hget. reflexivity.
Qed.

Lemma simplify_relationships_without_key_witness :
  dict_get "relationships" [("datasets", JList [])] = None
  /\ Main.simplify_relationships Toy.G (JDict [("datasets", JList [])]) true true (Toy.w0 3)
     = (Ok (JDict [("datasets", JList [])]), Toy.w0 3).
Proof.
  split; [reflexivity|].
  apply (simplify_relationships_without_key Toy.G [("datasets", JList [])] true true).
  reflexivity.
Defined.

(** What [simplify_relationships] does with the list when it only removes
    duplicates. *)
Lemma simplify_relationships_redundant
    (G : Generators) (d : dict) (rs : list json) (w : Main.world G) :
  dict_get "relationships" d = Some (JList rs) ->
  Main.simplify_relationships G (JDict d) true false w
  = match remove_duplicates [] rs with
    | Ok kept => (Ok (JDict (dict_set "relationships" (JList kept) d)), w)
    | Raise e => (Raise e, w)
    end.
Proof.
  intros Hget. unfold Main.simplify_relationships. rewrite Hget.
  unfold Main.bind, Main.lift, Main.ret.
  destruct (remove_duplicates [] rs); reflexivity.
Qed.

(** C3, as the code has it.  When every entry of [relationships] can be turned
    into a tuple of hashable values, removing duplicates replaces the list by
    its first occurrences, in their order, and leaves the rest of the document
    and the generators untouched; when the random filter is asked for as well,
    it is the list of first occurrences that the filter is applied to. *)
Theorem simplify_relationships_keeps_first_occurrences
    (G : Generators) (d : dict) (rs : list json) (w : Main.world G) :
  dict_get "relationships" d = Some (JList rs) ->
  forallb entry_ok rs = true ->
  Main.simplify_relationships G (JDict d) true false w
  = (Ok (JDict (dict_set "relationships" (JList (first_occurrences rs)) d)), w)
  /\ Main.simplify_relationships G (JDict d) true true w
     = Main.bind G (Main.random_retention G (first_occurrences rs))
         (fun kept => Main.ret G (JDict (dict_set "relationships" (JList kept) d))) w.
Proof.
  intros Hget Hok. split.
  - rewrite (simplify_relationships_redundant G d rs w Hget).
    rewrite (remove_duplicates_first_occurrences rs Hok). reflexivity.
  - unfold Main.simplify_relationships. rewrite Hget.
    rewrite (remove_duplicates_first_occurrences rs Hok). reflexivity.
Qed.

Lemma simplify_relationships_keeps_first_occurrences_witness :
  dict_get "relationships" example_document = Some (JList example_relationships)
  /\ forallb entry_ok example_relationships = true
  /\ Main.simplify_relationships Toy.G (JDict example_document) true false (Toy.w0 3)
     = (Ok (JDict [("relationships",
                    JList [JList [JStr "a"; JStr "b"]; JList [JStr "c"; JStr "d"]]);
                   ("datasets", JList [])]),
        Toy.w0 3).
Proof.
  split; [reflexivity|]. split; [reflexivity|].
  apply (simplify_relationships_keeps_first_occurrences
           Toy.G example_document example_relationships (Toy.w0 3));
    reflexivity.
Defined.

(** C3 as it is written fails: [relationships] is a list, and the call raises
    instead of replacing it. *)
Lemma simplify_relationships_list_not_replaced :
  dict_get "relationships" [("relationships", JList [JList [JStr "a"; JStr "b"]; JNull])]
  = Some (JList [JList [JStr "a"; JStr "b"]; JNull])
  /\ forall out : json,
       fst (Main.simplify_relationships Toy.G
              (JDict [("relationships", JList [JList [JStr "a"; JStr "b"]; JNull])])
              true false (Toy.w0 3))
       <> Ok out.
Proof.
  split; [reflexivity|]. intros out. simpl. discriminate.
Qed.

(** C8.  Removing duplicates twice is removing them once: the second call
    returns the document, raises the exception and leaves the generators as the
    first one does. *)
Theorem simplify_relationships_redundant_idempotent
    (G : Generators) (d : dict) (rs : list json) (w : Main.world G) :
  dict_get "relationships" d = Some (JList rs) ->
  Main.bind G (Main.simplify_relationships G (JDict d) true false)
              (fun data' => Main.simplify_relationships G data' true false) w
  = Main.simplify_relationships G (JDict d) true false w.
Proof.
  intros Hget. unfold Main.bind at 1.
  rewrite (simplify_relationships_redundant G d rs w Hget).
  destruct (remove_duplicates [] rs) as [kept|e] eqn:Hkept; [|reflexivity].
  rewrite (simplify_relationships_redundant G _ kept w (dict_get_set_same _ _ _)).
  rewrite (remove_duplicates_idempotent rs kept Hkept).
  rewrite dict_set_set. reflexivity.
Qed.

Lemma simplify_relationships_redundant_idempotent_witness :
  dict_get "relationships" example_document = Some (JList example_relationships)
  /\ Main.bind Toy.G (Main.simplify_relationships Toy.G (JDict example_document) true false)
       (fun data' => Main.simplify_relationships Toy.G data' true false) (Toy.w0 3)
     = Main.simplify_relationships Toy.G (JDict example_document) true false (Toy.w0 3).
Proof.
  split; [reflexivity|].
  apply (simplify_relationships_redundant_idempotent
           Toy.G example_document example_relationships (Toy.w0 3)).
  reflexivity.
Defined.

(** C10.  Beyond the check that [relationships] is a list, removing
    duplicates can fail: an entry that is not iterable makes [tuple] raise, an
    entry holding a list or a dict makes the set refuse its tuple, and in both
    cases the call ends with a [TypeError], not with the [ValueError] of the
    validation and not with a document. *)
Theorem simplify_relationships_redundant_partial
    (G : Generators) (remove_non_essential : bool) (w : Main.world G) :
  fst (Main.simplify_relationships G
         (JDict [("relationships", JList [JInt 5])]) true remove_non_essential w)
  = Raise (TypeError (NotIterable "int"))
  /\ fst (Main.simplify_relationships G
            (JDict [("relationships", JList [JList [JList [JStr "a"]; JStr "b"]])])
            true remove_non_essential w)
     = Raise (TypeError (Unhashable "list"))
  /\ fst (Main.simplify_relationships G
            (JDict [("relationships", JList [JList [JDict [("a", JInt 1)]]])])
            true remove_non_essential w)
     = Raise (TypeError (Unhashable "dict")).
Proof.
  repeat split; reflexivity.
Qed.

(** ** The anonymizer, pair by pair *)

Lemma pair_post_any (G : Generators) (level : string) :
  pair_post G level (fun _ _ _ => True).
Proof.
  intros key value record w. unfold Main.anonymize_pair.
  unfold Main.bind, Main.fake, Main.random_call, Main.ret.
  repeat match goal with
         | |- context [if ?b then _ else _] => destruct b
         end;
    repeat match goal with
           | |- context [let (_, _) := ?f ?g in _] => destruct (f g)
           end;
    try (eexists (Some _), _; split; [reflexivity | exact I]);
    (eexists None, _; split; [reflexivity | exact I]).
Qed.

Lemma pair_post_high (G : Generators) : pair_post G "high" (high_rel G).
Proof.
  intros key value record w. unfold Main.anonymize_pair. simpl.
  unfold Main.bind, Main.fake, Main.ret.
  draw (fake_uuid4 G) (Main.w_faker G w) s g' E. assigned (JStr s).
  exists (Main.w_faker G w). rewrite E. split; [reflexivity|].
  pose proof (uuid4_format G (Main.w_faker G w)) as H. rewrite E in H. exact H.
Qed.

Lemma pair_post_low (G : Generators) : pair_post G "low" (low_rel G).
Proof.
  intros key value record w. unfold Main.anonymize_pair, low_rel. simpl.
  unfold Main.bind, Main.fake, Main.ret.
  destruct (is_str value) eqn:Hstr; simpl.
  - destruct (contains "name" (lower key)) eqn:Hname.
    { draw (fake_name G) (Main.w_faker G w) s g' E. assigned (JStr s).
      repeat split; intros; try congruence.
      exists (Main.w_faker G w). rewrite E. reflexivity. }
    destruct (contains "email" (lower key)) eqn:Hemail.
    { draw (fake_email G) (Main.w_faker G w) s g' E. assigned (JStr s).
      repeat split; intros; try congruence.
      exists (Main.w_faker G w). rewrite E. reflexivity. }
    destruct (contains "phone" (lower key)) eqn:Hphone.
    { draw (fake_phone_number G) (Main.w_faker G w) s g' E. assigned (JStr s).
      repeat split; intros; try congruence.
      exists (Main.w_faker G w). rewrite E. reflexivity. }
    untouched. repeat split; intros; congruence.
  - untouched. repeat split; intros; congruence.
Qed.

Lemma pair_post_medium (G : Generators) : pair_post G "medium" (medium_rel G).
Proof.
  intros key value record w. unfold Main.anonymize_pair, medium_rel. simpl.
  unfold Main.bind, Main.fake, Main.random_call, Main.ret.
  destruct (is_str value) eqn:Hstr.
  - assert (Hint : is_int value = false) by (destruct value; try discriminate; reflexivity).
    rewrite Hint.
    repeat match goal with
           | |- context [if ?b then _ else _] => destruct b
           end;
      match goal with
      | |- context [let (_, _) := ?f ?g in _] => destruct (f g) as [s g']
      end;
      assigned (JStr s);
      (split; [intros _; exists s; reflexivity | split; intros; congruence]).
  - destruct (is_int value) eqn:Hint.
    + draw (random_randint G 0 100) (Main.w_random G w) n g' E. assigned (JInt n).
      split; [intros; congruence|]. split; [|intros; congruence].
      intros _ _. exists n. split; [reflexivity|].
      split.
      * exists (Main.w_random G w). rewrite E. reflexivity.
      * pose proof (randint_range G 0 100 (Main.w_random G w)) as Hrange.
        rewrite E in Hrange. simpl in Hrange. apply Hrange. lia.
    + untouched. split; [intros; congruence|]. split; [intros; congruence|].
      intros; reflexivity.
Qed.

(** ** The anonymizer, loop by loop *)

Lemma keys_distinct_NoDup (ks : list string) : keys_distinct ks = true -> NoDup ks.
Proof.
  induction ks as [|k ks IH]; simpl; intros H; constructor.
  - apply andb_true_iff in H. destruct H as [H _]. apply negb_true_iff in H.
    intros Hin. assert (Hex : existsb (String.eqb k) ks = true).
    { apply existsb_exists. exists k. split; [exact Hin | apply String.eqb_refl]. }
    congruence.
  - apply andb_true_iff in H. exact (IH (proj2 H)).
Qed.

Lemma dict_set_middle (k : string) (v v' : json) (done rest : dict) :
  ~ In k (dict_keys done) ->
  dict_set k v' (done ++ (k, v) :: rest) = done ++ (k, v') :: rest.
Proof.
  induction done as [|[k0 v0] done IH]; simpl; intros Hnot.
  - rewrite String.eqb_refl. reflexivity.
  - destruct (String.eqb k0 k) eqn:E.
    + apply String.eqb_eq in E. exfalso. apply Hnot. left. exact E.
    + rewrite IH; [reflexivity|]. intros Hin. apply Hnot. right. exact Hin.
Qed.

Section Loops.

Context (G : Generators) (level : string) (R : string -> json -> json -> Prop).
Hypothesis HR : pair_post G level R.

(** The loop over the items rewrites the record place by place: [done] holds
    the pairs already visited, [items] those still to visit. *)
Lemma for_items_rel (items : list (string * json)) :
  forall (done : dict) (w : Main.world G),
    NoDup (dict_keys (done ++ items)) ->
    exists items' w',
      Main.for_items G level items (done ++ items) w = (Ok (done ++ items'), w')
      /\ Forall2 (pair_rel R) items items'.
Proof.
  induction items as [|[key value] items IH]; intros done w Hnd; simpl.
  - exists [], w. split; [reflexivity | constructor].
  - destruct (HR key value (done ++ (key, value) :: items) w) as [o [w1 [Hrun HRel]]].
    unfold Main.bind. rewrite Hrun.
    assert (Hnot : ~ In key (dict_keys done)).
    { unfold dict_keys in *. rewrite map_app in Hnd. simpl in Hnd.
      apply NoDup_remove_2 in Hnd. intros Hin. apply Hnd.
      apply in_or_app. left. exact Hin. }
    set (value' := match o with Some x => x | None => value end) in *.
    assert (Hassign : assign key o (done ++ (key, value) :: items)
                      = (done ++ [(key, value')]) ++ items).
    { rewrite <- app_assoc. simpl. unfold value'. destruct o as [x|]; simpl.
      - apply dict_set_middle. exact Hnot.
      - reflexivity. }
    rewrite Hassign.
    destruct (IH (done ++ [(key, value')]) w1) as [items' [w' [Hrest Hall]]].
    { unfold dict_keys in *. rewrite <- app_assoc. simpl.
      rewrite map_app in *. simpl in *. exact Hnd. }
    exists ((key, value') :: items'), w'. split.
    + rewrite Hrest. rewrite <- app_assoc. reflexivity.
    + constructor; [split; [reflexivity | exact HRel] | exact Hall].
Qed.

Lemma anonymize_record_rel (d : dict) (w : Main.world G) :
  dict_wf d = true ->
  exists d' w',
    Main.anonymize_record G level (JDict d) w = (Ok (JDict d'), w')
    /\ Forall2 (pair_rel R) d d'.
Proof.
  intros Hwf. destruct (for_items_rel d [] w) as [d' [w' [Hrun Hall]]].
  { simpl. apply keys_distinct_NoDup. exact Hwf. }
  simpl in Hrun. exists d', w'. split; [|exact Hall].
  unfold Main.anonymize_record, Main.bind. rewrite Hrun. reflexivity.
Qed.

Lemma for_records_rel (records : list json) :
  forall w : Main.world G,
    forallb record_ok records = true ->
    exists records' w',
      Main.for_records G level records w = (Ok records', w')
      /\ Forall2 (record_rel R) records records'.
Proof.
  induction records as [|record records IH]; intros w Hok; simpl.
  - exists [], w. split; [reflexivity | constructor].
  - simpl in Hok. apply andb_true_iff in Hok. destruct Hok as [Hrec Hrest].
    destruct record as [| | | | |l|d]; try discriminate.
    destruct (anonymize_record_rel d w Hrec) as [d' [w1 [Hrun Hall]]].
    destruct (IH w1 Hrest) as [records' [w' [Hrun' Hall']]].
    exists (JDict d' :: records'), w'. split.
    + unfold Main.bind at 1. rewrite Hrun.
      unfold Main.bind at 1. rewrite Hrun'. reflexivity.
    + constructor; [|exact Hall']. exists d, d'. auto.
Qed.

Lemma for_datasets_rel (datasets : list json) :
  forall w : Main.world G,
    forallb dataset_ok datasets = true ->
    exists datasets' w',
      Main.for_datasets G level datasets w = (Ok datasets', w')
      /\ Forall2 (dataset_rel R) datasets datasets'.
Proof.
  induction datasets as [|dataset datasets IH]; intros w Hok; simpl.
  - exists [], w. split; [reflexivity | constructor].
  - simpl in Hok. apply andb_true_iff in Hok. destruct Hok as [Hds Hrest].
    destruct dataset as [| | | | |records|d]; try discriminate.
    destruct (for_records_rel records w Hds) as [records' [w1 [Hrun Hall]]].
    destruct (IH w1 Hrest) as [datasets' [w' [Hrun' Hall']]].
    exists (JList records' :: datasets'), w'. split.
    + unfold Main.bind at 1. unfold Main.anonymize_dataset, Main.bind at 1.
      rewrite Hrun. unfold Main.ret at 1.
      unfold Main.bind at 1. rewrite Hrun'. reflexivity.
    + constructor; [|exact Hall']. exists records, records'. auto.
Qed.

End Loops.

(** *** Which runs raise *)

Section Validation.

Context (G : Generators) (level : string).

Lemma for_items_total (items : list (string * json)) :
  forall (record : dict) (w : Main.world G),
    exists record' w', Main.for_items G level items record w = (Ok record', w').
Proof.
  induction items as [|[key value] items IH]; intros record w; simpl.
  - exists record, w. reflexivity.
  - destruct (pair_post_any G level key value record w) as [o [w1 [Hrun _]]].
    unfold Main.bind. rewrite Hrun. apply IH.
Qed.

Lemma for_records_cons (record : json) (records : list json) (w : Main.world G) :
  Main.for_records G level (record :: records) w
  = match Main.anonymize_record G level record w with
    | (Ok record', w1) =>
        match Main.for_records G level records w1 with
        | (Ok rest, w') => (Ok (record' :: rest), w')
        | (Raise e, w') => (Raise e, w')
        end
    | (Raise e, w1) => (Raise e, w1)
    end.
Proof.
  simpl. unfold Main.bind.
  destruct (Main.anonymize_record G level record w) as [[record'|e] w1]; reflexivity.
Qed.

Lemma for_datasets_cons (dataset : json) (datasets : list json) (w : Main.world G) :
  Main.for_datasets G level (dataset :: datasets) w
  = match Main.anonymize_dataset G level dataset w with
    | (Ok dataset', w1) =>
        match Main.for_datasets G level datasets w1 with
        | (Ok rest, w') => (Ok (dataset' :: rest), w')
        | (Raise e, w') => (Raise e, w')
        end
    | (Raise e, w1) => (Raise e, w1)
    end.
Proof.
  simpl. unfold Main.bind.
  destruct (Main.anonymize_dataset G level dataset w) as [[dataset'|e] w1]; reflexivity.
Qed.

Lemma for_records_result (records : list json) :
  forall w : Main.world G, exists w',
    if forallb is_dict records
    then exists records', Main.for_records G level records w = (Ok records', w')
    else exists msg, Main.for_records G level records w = (Raise (ValueError msg), w').
Proof.
  induction records as [|record records IH]; intros w.
  - exists w, []. reflexivity.
  - rewrite for_records_cons.
    change (forallb is_dict (record :: records))
      with (is_dict record && forallb is_dict records)%bool.
    destruct record as [| | | | | |d];
      try (exists w; eexists; reflexivity).
    destruct (for_items_total d d w) as [d' [w1 Hrun]].
    unfold Main.anonymize_record, Main.bind. rewrite Hrun. unfold Main.ret.
    destruct (IH w1) as [w' Hrest]. exists w'. simpl andb.
    destruct (forallb is_dict records).
    + destruct Hrest as [records' Hrest]. rewrite Hrest. eexists. reflexivity.
    + destruct Hrest as [msg Hrest]. rewrite Hrest. eexists. reflexivity.
Qed.

Lemma for_datasets_result (datasets : list json) :
  forall w : Main.world G, exists w',
    if valid_datasets (JList datasets)
    then exists datasets', Main.for_datasets G level datasets w = (Ok datasets', w')
    else exists msg, Main.for_datasets G level datasets w = (Raise (ValueError msg), w').
Proof.
  induction datasets as [|dataset datasets IH]; intros w.
  - exists w, []. reflexivity.
  - rewrite for_datasets_cons.
    change (valid_datasets (JList (dataset :: datasets)))
      with (match dataset with
            | JList records => forallb is_dict records
            | _ => false
            end && valid_datasets (JList datasets))%bool.
    destruct dataset as [| | | | |records|];
      try (exists w; eexists; reflexivity).
    destruct (for_records_result records w) as [w1 Hrun].
    unfold Main.anonymize_dataset, Main.bind. cbv iota.
    destruct (forallb is_dict records).
    + destruct Hrun as [records' Hrun]. rewrite Hrun. unfold Main.ret.
      destruct (IH w1) as [w' Hrest]. exists w'. rewrite andb_true_l.
      destruct (valid_datasets (JList datasets)).
      * destruct Hrest as [datasets' Hrest]. rewrite Hrest. eexists. reflexivity.
      * destruct Hrest as [msg Hrest]. rewrite Hrest. eexists. reflexivity.
    + destruct Hrun as [msg Hrun]. rewrite Hrun. exists w1. rewrite andb_false_l.
      eexists. reflexivity.
Qed.

End Validation.

(** *** The whole of [anonymize_data] on a document *)

(** The world once [random.seed] and [Faker.seed] have been called. *)
Lemma anonymize_data_run
    (G : Generators) (d : dict) (level : string) (seed : option Z) (w : Main.world G) :
  exists w0,
    Main.anonymize_data G (JDict d) level seed w
    = match dict_get "datasets" d with
      | None => (Ok (JDict d), w0)
      | Some (JList datasets) =>
          match Main.for_datasets G level datasets w0 with
          | (Ok datasets', w') =>
              (Ok (JDict (dict_set "datasets" (JList datasets') d)), w')
          | (Raise e, w') => (Raise e, w')
          end
      | Some _ => (Raise (ValueError "Datasets must be a list."), w0)
      end.
Proof.
  unfold Main.anonymize_data, Main.seed_random, Main.seed_faker, Main.lift,
    Main.lookup_datasets.
  destruct seed as [n|].
  - eexists. unfold Main.bind at 1 2 3.
    destruct (dict_get "datasets" d) as [[| | | | |datasets|]|]; reflexivity.
  - destruct (Faker_seed_os G (Main.w_os G w)) as [g os] eqn:Hos.
    eexists. unfold Main.bind at 1 2 3. rewrite Hos.
    destruct (dict_get "datasets" d) as [[| | | | |datasets|]|]; reflexivity.
Qed.

Lemma datasets_ok_split (v : json) :
  valid_datasets v = true -> records_wf v = true ->
  exists datasets, v = JList datasets /\ forallb dataset_ok datasets = true.
Proof.
  destruct v as [| | | | |datasets|]; try discriminate.
  intros Hvalid Hwf. exists datasets. split; [reflexivity|].
  simpl in Hvalid, Hwf.
  induction datasets as [|dataset datasets IH]; [reflexivity|].
  simpl in *. apply andb_true_iff in Hvalid, Hwf.
  destruct Hvalid as [Hv Hvs], Hwf as [Hw Hws].
  rewrite (IH Hvs Hws), andb_true_r.
  destruct dataset as [| | | | |records|]; try discriminate.
  simpl. clear - Hv Hw.
  induction records as [|record records IH]; [reflexivity|].
  simpl in *. apply andb_true_iff in Hv, Hw.
  destruct Hv as [Hv Hvs], Hw as [Hw Hws].
  rewrite (IH Hvs Hws), andb_true_r.
  destruct record; try discriminate. exact Hw.
Qed.

(** On a document whose datasets have the shape that is checked, the
    anonymizer returns the document with [datasets] rewritten pair by pair. *)
Lemma anonymize_data_rel
    (G : Generators) (level : string) (R : string -> json -> json -> Prop)
    (d : dict) (v : json) (seed : option Z) (w : Main.world G) :
  pair_post G level R ->
  dict_get "datasets" d = Some v ->
  valid_datasets v = true -> records_wf v = true ->
  exists v' w',
    Main.anonymize_data G (JDict d) level seed w
    = (Ok (JDict (dict_set "datasets" v' d)), w')
    /\ datasets_rel R v v'.
Proof.
  intros HR Hget Hvalid Hwf.
  destruct (datasets_ok_split v Hvalid Hwf) as [datasets [-> Hok]].
  destruct (anonymize_data_run G d level seed w) as [w0 Hrun].
  rewrite Hget in Hrun.
  destruct (for_datasets_rel G level R HR datasets w0 Hok) as [datasets' [w' [Hloop Hall]]].
  rewrite Hloop in Hrun.
  exists (JList datasets'), w'. split; [exact Hrun|].
  exists datasets, datasets'. auto.
Qed.

(** ** The anonymizer on a document *)

(** C6.  On a document with a [datasets] key, [anonymize_data] raises exactly
    when [datasets] is not a list of lists of dicts, and what it raises then
    is the [ValueError] of the validation; on a list of lists of dicts it
    returns, at every level and with every seed. *)
Theorem anonymize_data_raises_iff_invalid
    (G : Generators) (d : dict) (v : json) (level : string) (seed : option Z)
    (w : Main.world G) :
  dict_get "datasets" d = Some v ->
  (valid_datasets v = false <->
   exists msg, fst (Main.anonymize_data G (JDict d) level seed w) = Raise (ValueError msg))
  /\ (valid_datasets v = true <->
      exists data', fst (Main.anonymize_data G (JDict d) level seed w) = Ok data').
Proof.
  intros Hget. destruct (anonymize_data_run G d level seed w) as [w0 Hrun].
  rewrite Hget in Hrun. rewrite Hrun. clear Hrun.
  destruct v as [| | | | |datasets|];
    try (simpl; split; split;
         [ intros _; eexists; reflexivity | reflexivity
         | discriminate | intros [data' H]; discriminate ]).
  destruct (for_datasets_result G level datasets w0) as [w' Hres].
  destruct (valid_datasets (JList datasets)).
  - destruct Hres as [datasets' ->]. simpl. split; split.
    + discriminate.
    + intros [msg H]. discriminate.
    + intros _. eexists. reflexivity.
    + reflexivity.
  - destruct Hres as [msg ->]. simpl. split; split.
    + intros _. eexists. reflexivity.
    + reflexivity.
    + discriminate.
    + intros [data' H]. discriminate.
Qed.

Lemma anonymize_data_raises_iff_invalid_witness :
  dict_get "datasets" [("datasets", JList [JList [JDict [("age", JInt 30)]]; JInt 5])]
  = Some (JList [JList [JDict [("age", JInt 30)]]; JInt 5])
  /\ (valid_datasets (JList [JList [JDict [("age", JInt 30)]]; JInt 5]) = false <->
      exists msg,
        fst (Main.anonymize_data Toy.G
               (JDict [("datasets", JList [JList [JDict [("age", JInt 30)]]; JInt 5])])
               "medium" (Some 42) (Toy.w0 3))
        = Raise (ValueError msg))
  /\ (valid_datasets (JList [JList [JDict [("age", JInt 30)]]; JInt 5]) = true <->
      exists data',
        fst (Main.anonymize_data Toy.G
               (JDict [("datasets", JList [JList [JDict [("age", JInt 30)]]; JInt 5])])
               "medium" (Some 42) (Toy.w0 3))
        = Ok data').
Proof.
  split; [reflexivity|].
  apply (anonymize_data_raises_iff_invalid Toy.G
           [("datasets", JList [JList [JDict [("age", JInt 30)]]; JInt 5])]
           (JList [JList [JDict [("age", JInt 30)]]; JInt 5])
           "medium" (Some 42) (Toy.w0 3)).
  reflexivity.
Defined.

(** C4.  At level high, on datasets of the checked shape, every value of
    every record is replaced by a text that [uuid4] has just drawn, which has
    the format of a UUID; the key and the value that was there play no part.
    Datasets, records and keys stay in place. *)
Theorem anonymize_data_high_all_uuid
    (G : Generators) (d : dict) (v : json) (seed : option Z) (w : Main.world G) :
  dict_get "datasets" d = Some v ->
  valid_datasets v = true -> records_wf v = true ->
  exists v' w',
    Main.anonymize_data G (JDict d) "high" seed w
    = (Ok (JDict (dict_set "datasets" v' d)), w')
    /\ datasets_rel (high_rel G) v v'.
Proof.
  intros Hget Hvalid Hwf.
  exact (anonymize_data_rel G "high" (high_rel G) d v seed w
           (pair_post_high G) Hget Hvalid Hwf).
Qed.

Lemma anonymize_data_high_all_uuid_witness :
  dict_get "datasets" [("datasets", example_datasets)] = Some example_datasets
  /\ valid_datasets example_datasets = true
  /\ records_wf example_datasets = true
  /\ exists v' w',
       Main.anonymize_data Toy.G (JDict [("datasets", example_datasets)]) "high"
         (Some 42) (Toy.w0 3)
       = (Ok (JDict (dict_set "datasets" v' [("datasets", example_datasets)])), w')
       /\ datasets_rel (high_rel Toy.G) example_datasets v'.
Proof.
  split; [reflexivity|]. split; [reflexivity|]. split; [reflexivity|].
  apply (anonymize_data_high_all_uuid Toy.G [("datasets", example_datasets)]
           example_datasets (Some 42) (Toy.w0 3)); reflexivity.
Defined.

(** C5.  At level low, on datasets of the checked shape, a value that is not
    a text stays, a text under a key whose lower-cased name contains none of
    "name", "email", "phone" stays, and a text under a key that contains one
    of them becomes the synthetic name, email address or phone number, the
    first of the three that the key contains. *)
Theorem anonymize_data_low_only_text
    (G : Generators) (d : dict) (v : json) (seed : option Z) (w : Main.world G) :
  dict_get "datasets" d = Some v ->
  valid_datasets v = true -> records_wf v = true ->
  exists v' w',
    Main.anonymize_data G (JDict d) "low" seed w
    = (Ok (JDict (dict_set "datasets" v' d)), w')
    /\ datasets_rel (low_rel G) v v'.
Proof.
  intros Hget Hvalid Hwf.
  exact (anonymize_data_rel G "low" (low_rel G) d v seed w
           (pair_post_low G) Hget Hvalid Hwf).
Qed.

Lemma anonymize_data_low_only_text_witness :
  dict_get "datasets" [("datasets", example_datasets)] = Some example_datasets
  /\ valid_datasets example_datasets = true
  /\ records_wf example_datasets = true
  /\ exists v' w',
       Main.anonymize_data Toy.G (JDict [("datasets", example_datasets)]) "low"
         (Some 42) (Toy.w0 3)
       = (Ok (JDict (dict_set "datasets" v' [("datasets", example_datasets)])), w')
       /\ datasets_rel (low_rel Toy.G) example_datasets v'.
Proof.
  split; [reflexivity|]. split; [reflexivity|]. split; [reflexivity|].
  apply (anonymize_data_low_only_text Toy.G [("datasets", example_datasets)]
           example_datasets (Some 42) (Toy.w0 3)); reflexivity.
Defined.


(** C2, where the code departs from it.  [isinstance(True, int)] holds, so at
    level medium a boolean, which is neither a text nor an integer of the
    document, does not stay: with every generator and every seed it is
    replaced by an integer of [0, 100]. *)
Theorem anonymize_data_medium_replaces_boolean
    (G : Generators) (b : bool) (seed : option Z) (w : Main.world G) :
  exists n : Z,
    fst (Main.anonymize_data G
           (JDict [("datasets", JList [JList [JDict [("active", JBool b)]]])])
           "medium" seed w)
    = Ok (JDict [("datasets", JList [JList [JDict [("active", JInt n)]]])])
    /\ 0 <= n <= 100.
Proof.
  destruct (anonymize_data_run G
              [("datasets", JList [JList [JDict [("active", JBool b)]]])]
              "medium" seed w) as [w0 Hrun].
  rewrite Hrun. simpl.
  destruct (pair_post_medium G "active" (JBool b) [("active", JBool b)] w0)
    as [o [w1 [Hpair [_ [Hint _]]]]].
  unfold Main.bind, Main.ret. rewrite Hpair.
  destruct (Hint eq_refl eq_refl) as [n [Hn [_ Hrange]]].
  exists n. split; [|exact Hrange].
  destruct o as [value'|]; [|discriminate]. subst value'. reflexivity.
Qed.

Lemma pair_rel_keys (R : string -> json -> json -> Prop) (d d' : dict) :
  Forall2 (pair_rel R) d d' -> dict_keys d' = dict_keys d.
Proof.
  unfold dict_keys. induction 1 as [|kv kv' d d' [Hk _] _ IH]; simpl; [reflexivity|].
  rewrite Hk, IH. reflexivity.
Qed.

(** Equal shapes have as many datasets, as many records in each, and the same
    keys in each record. *)
Lemma same_shape_counts (v v' : json) :
  same_shape v v' ->
  exists datasets datasets',
    v = JList datasets /\ v' = JList datasets'
    /\ List.length datasets' = List.length datasets
    /\ Forall2 (fun dataset dataset' =>
                  exists records records',
                    dataset = JList records /\ dataset' = JList records'
                    /\ List.length records' = List.length records
                    /\ Forall2 (fun record record' =>
                                  exists r r',
                                    record = JDict r /\ record' = JDict r'
                                    /\ dict_keys r' = dict_keys r)
                               records records')
               datasets datasets'.
Proof.
  intros [datasets [datasets' [-> [-> Hall]]]].
  exists datasets, datasets'. repeat split.
  - symmetry. exact (Forall2_length Hall).
  - induction Hall as [|ds ds' dss dss' [rs [rs' [-> [-> Hrs]]]] _ IH]; constructor;
      [|exact IH].
    exists rs, rs'. repeat split.
    + symmetry. exact (Forall2_length Hrs).
    + clear - Hrs.
      induction Hrs as [|r r' rs rs' [d [d' [-> [-> Hd]]]] _ IH]; constructor;
        [|exact IH].
      exists d, d'. repeat split. exact (pair_rel_keys _ _ _ Hd).
Qed.

(** C9.  On a document that passes the checks, [anonymize_data] returns, at
    every level and with every seed, a document with the same keys, the same
    value under every key other than [datasets] ([relationships] among them),
    and under [datasets] as many datasets, as many records in each and the
    same keys in each record as before. *)
Theorem anonymize_data_frame
    (G : Generators) (d : dict) (level : string) (seed : option Z) (w : Main.world G) :
  document_ok d = true ->
  exists d' w',
    Main.anonymize_data G (JDict d) level seed w = (Ok (JDict d'), w')
    /\ doc_frame d d'
    /\ dict_get "relationships" d' = dict_get "relationships" d.
Proof.
  unfold document_ok, doc_frame. intros Hok.
  destruct (dict_get "datasets" d) as [v|] eqn:Hget.
  - apply andb_true_iff in Hok. destruct Hok as [Hvalid Hwf].
    destruct (anonymize_data_rel G level (fun _ _ _ => True) d v seed w
                (pair_post_any G level) Hget Hvalid Hwf) as [v' [w' [Hrun Hrel]]].
    exists (dict_set "datasets" v' d), w'. split; [exact Hrun|]. split.
    + split; [exact (dict_keys_set _ _ _ _ Hget)|]. split.
      * intros k Hk. apply dict_get_set_other. exact Hk.
      * exists v'. split; [apply dict_get_set_same | exact Hrel].
    + apply dict_get_set_other. discriminate.
  - destruct (anonymize_data_run G d level seed w) as [w0 Hrun].
    rewrite Hget in Hrun. exists d, w0. split; [exact Hrun|].
    split; [|reflexivity]. split; [reflexivity|]. split; [reflexivity | exact Hget].
Qed.

Lemma anonymize_data_frame_witness :
  document_ok [("relationships", JList example_relationships);
               ("datasets", example_datasets)] = true
  /\ exists d' w',
       Main.anonymize_data Toy.G
         (JDict [("relationships", JList example_relationships);
                 ("datasets", example_datasets)])
         "medium" (Some 42) (Toy.w0 3)
       = (Ok (JDict d'), w')
       /\ doc_frame [("relationships", JList example_relationships);
                     ("datasets", example_datasets)] d'
       /\ dict_get "relationships" d' = Some (JList example_relationships).
Proof.
  split; [reflexivity|].
  apply (anonymize_data_frame Toy.G
           [("relationships", JList example_relationships);
            ("datasets", example_datasets)]
           "medium" (Some 42) (Toy.w0 3)).
  reflexivity.
Defined.

(** ** The driver and the seed *)

Lemma simplify_relationships_returns_dict
    (G : Generators) (data data' : json) (rr rne : bool) (w w' : Main.world G) :
  Main.simplify_relationships G data rr rne w = (Ok data', w') ->
  exists d', data' = JDict d'.
Proof.
  unfold Main.simplify_relationships.
  destruct data as [| | | | | |d]; try discriminate.
  destruct (dict_get "relationships" d) as [[| | | | |rs|]|]; try discriminate.
  - unfold Main.bind, Main.ret.
    destruct ((if rr then Main.lift G (remove_duplicates [] rs) else _) w)
      as [[kept|e] w1]; [|discriminate].
    destruct ((if rne then Main.random_retention G kept else _) w1)
      as [[kept'|e] w2]; [|discriminate].
    intros H. injection H as <- _. eexists. reflexivity.
  - intros H. injection H as <- _. eexists. reflexivity.
Qed.

(** What [anonymize_data] returns depends on the seed, but not whether it
    returns, nor the [relationships] of what it returns. *)
Lemma anonymize_data_retained
    (G : Generators) (d : dict) (level : string) (s1 s2 : option Z) (w : Main.world G) :
  retained (fst (Main.anonymize_data G (JDict d) level s1 w))
  = retained (fst (Main.anonymize_data G (JDict d) level s2 w)).
Proof.
  destruct (anonymize_data_run G d level s1 w) as [w1 H1].
  destruct (anonymize_data_run G d level s2 w) as [w2 H2].
  rewrite H1, H2. clear H1 H2.
  destruct (dict_get "datasets" d) as [[| | | | |datasets|]|]; try reflexivity.
  destruct (for_datasets_result G level datasets w1) as [w1' R1].
  destruct (for_datasets_result G level datasets w2) as [w2' R2].
  destruct (valid_datasets (JList datasets)).
  - destruct R1 as [ds1 ->], R2 as [ds2 ->]. simpl.
    rewrite !dict_get_set_other by discriminate. reflexivity.
  - destruct R1 as [m1 ->], R2 as [m2 ->]. reflexivity.
Qed.

(** X14.  In [main] the retention filter has run before the seed is given to
    any generator: what is retained is the same for every value of [--seed]. *)
Lemma main_retention_ignores_seed
    (G : Generators) (a : Main.args) (data : json) (s1 s2 : option Z)
    (w : Main.world G) :
  retained (fst (Main.main G (with_seed a s1) data w))
  = retained (fst (Main.main G (with_seed a s2) data w)).
Proof.
  unfold Main.main, with_seed. simpl.
  destruct (Main.anonymize a && negb (Main.level_recognized (Main.anonymization_level a)))%bool;
    [reflexivity|].
  unfold Main.bind.
  destruct (Main.simplify_relationships G data (Main.remove_redundant a)
              (Main.remove_non_essential a) w) as [[sd|e] w1] eqn:Hs; [|reflexivity].
  destruct (Main.anonymize a); [|reflexivity].
  destruct (simplify_relationships_returns_dict G _ _ _ _ _ _ Hs) as [d1 ->].
  apply anonymize_data_retained.
Qed.

(** C1, where the code departs from it.  Two runs of the pipeline on the same
    document with [--remove-non-essential] and the same [--seed 42], started
    with the generator of [random] in two different states, as two processes
    are: one retains both entries, the other only the first. *)
Theorem main_same_seed_different_retention :
  retained (fst (Main.main Toy.G (Main.Build_args false true true "medium" (Some 42))
                   (JDict [("relationships",
                            JList [JList [JStr "a"; JStr "b"]; JList [JStr "c"; JStr "d"]]);
                           ("datasets", JList [])])
                   (Toy.w0 5)))
  = Some (JList [JList [JStr "a"; JStr "b"]; JList [JStr "c"; JStr "d"]])
  /\ retained (fst (Main.main Toy.G (Main.Build_args false true true "medium" (Some 42))
                      (JDict [("relationships",
                               JList [JList [JStr "a"; JStr "b"]; JList [JStr "c"; JStr "d"]]);
                              ("datasets", JList [])])
                      (Toy.w0 3)))
     = Some (JList [JList [JStr "a"; JStr "b"]]).
Proof.
  split; reflexivity.
Qed.

(** ** More on the relationship simplifier *)

Lemma subseq_refl {A : Type} (l : list A) : subseq l l.
Proof. induction l; constructor; assumption. Qed.

Lemma subseq_length {A : Type} (kept rs : list A) :
  subseq kept rs -> (List.length kept <= List.length rs)%nat.
Proof. induction 1; simpl; lia. Qed.

Lemma dict_set_same (k : string) (v : json) (d : dict) :
  dict_get k d = Some v -> dict_set k v d = d.
Proof.
  induction d as [|[k' v'] d IH]; simpl; [discriminate|].
  destruct (String.eqb k' k) eqn:E.
  - intros H. injection H as ->. reflexivity.
  - intros H. rewrite (IH H). reflexivity.
Qed.

Lemma remove_duplicates_subseq (rs : list json) :
  forall seen kept, remove_duplicates seen rs = Ok kept -> subseq kept rs.
Proof.
  induction rs as [|r rs IH]; intros seen kept H; simpl in H.
  - injection H as <-. constructor.
  - destruct (py_tuple r) as [t|e]; [|discriminate].
    destruct (hash_tuple t) as [u|e]; [|discriminate].
    destruct (set_contains seen t).
    + constructor. exact (IH _ _ H).
    + destruct (remove_duplicates (t :: seen) rs) as [kept'|e] eqn:Hrec; [|discriminate].
      injection H as <-. constructor. exact (IH _ _ Hrec).
Qed.



(** The random filter returns, keeps the entry of place [i] exactly when the
    [i]-th draw of [random.random()] is above 0.2, and leaves the generator
    after as many draws as there are entries. *)
Lemma random_retention_run (G : Generators) (rs : list json) :
  forall w : Main.world G,
    Main.random_retention G rs w
    = (Ok (map fst
             (filter (fun rx => negb (Qle_bool (snd rx) float_0_2))
                     (combine rs (random_draws G (List.length rs) (Main.w_random G w))))),
       Main.Build_world G (after_draws G (List.length rs) (Main.w_random G w))
         (Main.w_faker G w) (Main.w_os G w)).
Proof.
  induction rs as [|r rs IH]; intros w.
  - destruct w. reflexivity.
  - simpl. unfold Main.bind at 1. unfold Main.random_call.
    destruct (random_random G (Main.w_random G w)) as [x g] eqn:E.
    unfold Main.bind at 1. rewrite IH. unfold Main.ret. simpl.
    destruct (Qle_bool x float_0_2); reflexivity.
Qed.

Lemma filter_subseq {A B : Type} (f : A * B -> bool) (rs : list A) :
  forall xs : list B, subseq (map fst (filter f (combine rs xs))) rs.
Proof.
  induction rs as [|r rs IH]; intros xs; simpl; [constructor|].
  destruct xs as [|x xs]; simpl.
  - constructor. clear IH r. induction rs; constructor; assumption.
  - destruct (f (r, x)); simpl; constructor; apply IH.
Qed.

(** X1.  With [--remove-non-essential] alone the simplifier always returns;
    the entry of place [i] stays exactly when the [i]-th draw from the
    process-wide generator is above 0.2, one draw is made per entry, and the
    other keys of the document do not move. *)
Theorem simplify_relationships_retention_by_draws
    (G : Generators) (d : dict) (rs : list json) (w : Main.world G) :
  dict_get "relationships" d = Some (JList rs) ->
  Main.simplify_relationships G (JDict d) false true w
  = (Ok (JDict (dict_set "relationships"
                  (JList (map fst
                            (filter (fun rx => negb (Qle_bool (snd rx) float_0_2))
                                    (combine rs (random_draws G (List.length rs)
                                                   (Main.w_random G w))))))
                  d)),
     Main.Build_world G (after_draws G (List.length rs) (Main.w_random G w))
       (Main.w_faker G w) (Main.w_os G w)).
Proof.
  intros Hget. unfold Main.simplify_relationships. rewrite Hget.
  unfold Main.bind at 1. unfold Main.ret at 1.
  unfold Main.bind. rewrite random_retention_run. reflexivity.
Qed.

Lemma simplify_relationships_retention_by_draws_witness :
  dict_get "relationships" example_document = Some (JList example_relationships)
  /\ fst (Main.simplify_relationships Toy.G (JDict example_document) false true (Toy.w0 2))
     = Ok (JDict [("relationships", JList [JList [JStr "a"; JStr "b"]]);
                  ("datasets", JList [])]).
Proof.
  split; [reflexivity|].
  rewrite (simplify_relationships_retention_by_draws
             Toy.G example_document example_relationships (Toy.w0 2) eq_refl).
  reflexivity.
Defined.

(** X2.  Whatever the flags, when the simplifier can run (no deduplication,
    or entries that convert to hashable tuples) it returns the document with
    [relationships] replaced by a subsequence of what was there: entries are
    only ever left out, never added, changed or reordered, so the count never
    grows.  It never touches the generator of Faker nor the entropy, and
    without the random filter it touches nothing of the world. *)
Theorem simplify_relationships_only_removes
    (G : Generators) (d : dict) (rs : list json) (rr rne : bool) (w : Main.world G) :
  dict_get "relationships" d = Some (JList rs) ->
  rr = false \/ forallb entry_ok rs = true ->
  exists kept w',
    Main.simplify_relationships G (JDict d) rr rne w
    = (Ok (JDict (dict_set "relationships" (JList kept) d)), w')
    /\ subseq kept rs
    /\ (List.length kept <= List.length rs)%nat
    /\ Main.w_faker G w' = Main.w_faker G w
    /\ Main.w_os G w' = Main.w_os G w
    /\ (rne = false -> w' = w).
Proof.
  intros Hget Hcan.
  assert (Hdedup : exists mid,
             (if rr then Main.lift G (remove_duplicates [] rs) else Main.ret G rs) w
             = (Ok mid, w) /\ subseq mid rs).
  { destruct rr.
    - destruct Hcan as [Hcan|Hok]; [discriminate|].
      exists (first_occurrences rs). unfold Main.lift.
      pose proof (remove_duplicates_first_occurrences rs Hok) as Hrd.
      rewrite Hrd. split; [reflexivity|].
      exact (remove_duplicates_subseq rs [] _ Hrd).
    - exists rs. split; [reflexivity | apply subseq_refl]. }
  destruct Hdedup as [mid [Hmid Hsub]].
  unfold Main.simplify_relationships. rewrite Hget.
  unfold Main.bind at 1. rewrite Hmid.
  destruct rne.
  - unfold Main.bind. rewrite random_retention_run. unfold Main.ret.
    eexists _, _. split; [reflexivity|]. simpl.
    assert (Hsub' : subseq
              (map fst (filter (fun rx => negb (Qle_bool (snd rx) float_0_2))
                          (combine mid (random_draws G (List.length mid)
                                          (Main.w_random G w))))) rs).
    { clear - Hsub. revert Hsub.
      generalize (random_draws G (List.length mid) (Main.w_random G w)).
      intros xs Hsub.
      pose proof (filter_subseq (fun rx : json * Q => negb (Qle_bool (snd rx) float_0_2))
                    mid xs) as H1.
      revert H1. generalize (map fst (filter (fun rx : json * Q =>
                   negb (Qle_bool (snd rx) float_0_2)) (combine mid xs))).
      intros kept H1. revert kept H1.
      induction Hsub as [|x m r _ IH|x m r _ IH]; intros kept H1.
      - exact H1.
      - inversion H1; subst; constructor; apply IH; assumption.
      - constructor. apply IH. exact H1. }
    repeat split; try exact Hsub'; try reflexivity.
    + exact (subseq_length _ _ Hsub').
    + discriminate.
  - unfold Main.bind, Main.ret. exists mid, w.
    repeat split; try assumption; try reflexivity.
    exact (subseq_length _ _ Hsub).
Qed.

Lemma simplify_relationships_only_removes_witness :
  dict_get "relationships" example_document = Some (JList example_relationships)
  /\ (true = false \/ forallb entry_ok example_relationships = true)
  /\ exists kept w',
       Main.simplify_relationships Toy.G (JDict example_document) true true (Toy.w0 3)
       = (Ok (JDict (dict_set "relationships" (JList kept) example_document)), w')
       /\ subseq kept example_relationships
       /\ (List.length kept <= List.length example_relationships)%nat
       /\ Main.w_faker Toy.G w' = Main.w_faker Toy.G (Toy.w0 3)
       /\ Main.w_os Toy.G w' = Main.w_os Toy.G (Toy.w0 3)
       /\ (true = false -> w' = Toy.w0 3).
Proof.
  split; [reflexivity|]. split; [right; reflexivity|].
  apply (simplify_relationships_only_removes Toy.G example_document
           example_relationships true true (Toy.w0 3)).
  - reflexivity.
  - right. reflexivity.
Defined.



(** X4.  What [simplify_relationships] returns is the document it was given
    but for the value of [relationships]: the keys are the same, in the same
    order, and every other key ([datasets] among them) has the value it
    had. *)
Theorem simplify_relationships_frame
    (G : Generators) (d : dict) (rr rne : bool) (data' : json) (w w' : Main.world G) :
  Main.simplify_relationships G (JDict d) rr rne w = (Ok data', w') ->
  exists d',
    data' = JDict d'
    /\ dict_keys d' = dict_keys d
    /\ (forall k, k <> "relationships" -> dict_get k d' = dict_get k d).
Proof.
  unfold Main.simplify_relationships.
  destruct (dict_get "relationships" d) as [[| | | | |rs|]|] eqn:Hget; try discriminate.
  - unfold Main.bind, Main.ret.
    destruct ((if rr then Main.lift G (remove_duplicates [] rs) else _) w)
      as [[mid|e] w1]; [|discriminate].
    destruct ((if rne then Main.random_retention G mid else _) w1)
      as [[kept|e] w2]; [|discriminate].
    intros H. injection H as <- _. eexists. split; [reflexivity|]. split.
    + exact (dict_keys_set _ _ _ _ Hget).
    + intros k Hk. apply dict_get_set_other. exact Hk.
  - intros H. injection H as <- _. exists d. repeat split.
Qed.

Lemma simplify_relationships_frame_witness :
  Main.simplify_relationships Toy.G (JDict example_document) true true (Toy.w0 2)
  = (Ok (JDict [("relationships", JList [JList [JStr "c"; JStr "d"]]);
                ("datasets", JList [])]),
     Main.Build_world Toy.G (Toy.step (Toy.step 2)) 7 11)
  /\ exists d',
       JDict [("relationships", JList [JList [JStr "c"; JStr "d"]]);
              ("datasets", JList [])] = JDict d'
       /\ dict_keys d' = dict_keys example_document
       /\ (forall k, k <> "relationships" -> dict_get k d' = dict_get k example_document).
Proof.
  split; [reflexivity|].
  apply (simplify_relationships_frame Toy.G example_document true true _
           (Toy.w0 2) (Main.Build_world Toy.G (Toy.step (Toy.step 2)) 7 11)).
  reflexivity.
Defined.

Lemma remove_duplicates_unseen (rs : list json) :
  forall seen kept, remove_duplicates seen rs = Ok kept ->
  forall r t, In r kept -> py_tuple r = Ok t -> set_contains seen t = false.
Proof.
  induction rs as [|r0 rs IH]; intros seen kept H r t Hin Ht; simpl in H.
  - injection H as <-. destruct Hin.
  - destruct (py_tuple r0) as [t0|e] eqn:Ht0; [|discriminate].
    destruct (hash_tuple t0) as [u|e]; [|discriminate].
    destruct (set_contains seen t0) eqn:Hseen.
    + exact (IH _ _ H r t Hin Ht).
    + destruct (remove_duplicates (t0 :: seen) rs) as [kept'|e] eqn:Hrec; [|discriminate].
      injection H as <-. destruct Hin as [<-|Hin].
      * rewrite Ht0 in Ht. injection Ht as <-. exact Hseen.
      * pose proof (IH _ _ Hrec r t Hin Ht) as Hn.
        unfold set_contains in Hn. simpl in Hn. apply orb_false_iff in Hn.
        exact (proj2 Hn).
Qed.

Lemma remove_duplicates_distinct (rs : list json) :
  forall seen kept, remove_duplicates seen rs = Ok kept -> tuples_distinct kept.
Proof.
  induction rs as [|r0 rs IH]; intros seen kept H; simpl in H.
  - injection H as <-. exact I.
  - destruct (py_tuple r0) as [t0|e] eqn:Ht0; [|discriminate].
    destruct (hash_tuple t0) as [u|e]; [|discriminate].
    destruct (set_contains seen t0).
    + exact (IH _ _ H).
    + destruct (remove_duplicates (t0 :: seen) rs) as [kept'|e] eqn:Hrec; [|discriminate].
      injection H as <-. split; [|exact (IH _ _ Hrec)].
      intros r' Hin. unfold same_tuple. rewrite Ht0.
      destruct (py_tuple r') as [t'|e] eqn:Ht'; [|reflexivity].
      pose proof (remove_duplicates_unseen rs _ _ Hrec r' t' Hin Ht') as Hn.
      unfold set_contains in Hn. simpl in Hn. apply orb_false_iff in Hn.
      destruct (tuple_eqb t0 t') eqn:E; [|reflexivity].
      apply tuple_eqb_sym in E. rewrite E in Hn. destruct Hn. discriminate.
Qed.

Lemma remove_duplicates_covers (rs : list json) :
  forall seen kept, remove_duplicates seen rs = Ok kept ->
  forall r, In r rs ->
    exists t, py_tuple r = Ok t
              /\ (set_contains seen t = true
                  \/ exists r', In r' kept /\ same_tuple r r' = true).
Proof.
  induction rs as [|r0 rs IH]; intros seen kept H r Hin; simpl in H; [destruct Hin|].
  destruct (py_tuple r0) as [t0|e] eqn:Ht0; [|discriminate].
  destruct (hash_tuple t0) as [u|e] eqn:Hh; [|discriminate].
  destruct (set_contains seen t0) eqn:Hseen.
  - destruct Hin as [<-|Hin].
    + exists t0. split; [exact Ht0 | left; exact Hseen].
    + exact (IH _ _ H r Hin).
  - destruct (remove_duplicates (t0 :: seen) rs) as [kept'|e] eqn:Hrec; [|discriminate].
    injection H as <-.
    assert (Hself : same_tuple r0 r0 = true).
    { unfold same_tuple. rewrite Ht0. apply tuple_eqb_refl.
      exact (hash_tuple_ok_inv _ _ Hh). }
    destruct Hin as [<-|Hin].
    + exists t0. split; [exact Ht0|]. right. exists r0. split; [left; reflexivity | exact Hself].
    + destruct (IH _ _ Hrec r Hin) as [t [Ht [Hs | [r' [Hr' Hsame]]]]];
        exists t; (split; [exact Ht|]).
      * unfold set_contains in Hs. simpl in Hs. apply orb_true_iff in Hs.
        destruct Hs as [Hs|Hs]; [|left; exact Hs].
        right. exists r0. split; [left; reflexivity|].
        unfold same_tuple. rewrite Ht, Ht0. exact Hs.
      * right. exists r'. split; [right; exact Hr' | exact Hsame].
Qed.

(** X5.  After deduplication no two entries of [relationships] have the same
    tuple, and every entry that was there has an entry with the same tuple
    left: nothing is kept twice and no relationship is lost. *)
Theorem simplify_relationships_distinct_and_complete
    (G : Generators) (d : dict) (rs : list json) (w : Main.world G) :
  dict_get "relationships" d = Some (JList rs) ->
  forallb entry_ok rs = true ->
  exists kept,
    Main.simplify_relationships G (JDict d) true false w
    = (Ok (JDict (dict_set "relationships" (JList kept) d)), w)
    /\ tuples_distinct kept
    /\ (forall r, In r rs -> exists r', In r' kept /\ same_tuple r r' = true).
Proof.
  intros Hget Hok.
  pose proof (remove_duplicates_first_occurrences rs Hok) as Hrd.
  exists (first_occurrences rs). split; [|split].
  - rewrite (simplify_relationships_redundant G d rs w Hget), Hrd. reflexivity.
  - exact (remove_duplicates_distinct rs [] _ Hrd).
  - intros r Hin.
    destruct (remove_duplicates_covers rs [] _ Hrd r Hin) as [t [_ [Hs|Hex]]];
      [discriminate | exact Hex].
Qed.

Lemma simplify_relationships_distinct_and_complete_witness :
  dict_get "relationships" example_document = Some (JList example_relationships)
  /\ forallb entry_ok example_relationships = true
  /\ exists kept,
       Main.simplify_relationships Toy.G (JDict example_document) true false (Toy.w0 3)
       = (Ok (JDict (dict_set "relationships" (JList kept) example_document)), Toy.w0 3)
       /\ tuples_distinct kept
       /\ (forall r, In r example_relationships ->
             exists r', In r' kept /\ same_tuple r r' = true).
Proof.
  split; [reflexivity|]. split; [reflexivity|].
  apply (simplify_relationships_distinct_and_complete Toy.G example_document
           example_relationships (Toy.w0 3)); reflexivity.
Defined.

(** X6.  Run without [--remove-redundant], [--remove-non-essential] and
    [--anonymize-data], the driver hands to [save_data] the document that
    [load_data] returned, unchanged, provided [relationships] is absent or a
    list; no generator is touched. *)
Theorem main_without_flags_identity
    (G : Generators) (a : Main.args) (d : dict) (w : Main.world G) :
  Main.remove_redundant a = false ->
  Main.remove_non_essential a = false ->
  Main.anonymize a = false ->
  dict_get "relationships" d = None
  \/ (exists rs, dict_get "relationships" d = Some (JList rs)) ->
  Main.main G a (JDict d) w = (Ok (JDict d), w).
Proof.
  intros Hrr Hrne Han Hrel. unfold Main.main. rewrite Hrr, Hrne, Han. simpl.
  unfold Main.bind, Main.simplify_relationships.
  destruct Hrel as [Hnone | [rs Hrs]].
  - rewrite Hnone. reflexivity.
  - rewrite Hrs. unfold Main.bind, Main.ret. rewrite (dict_set_same _ _ _ Hrs). reflexivity.
Qed.

Lemma main_without_flags_identity_witness :
  Main.remove_redundant (Main.Build_args false false false "medium" None) = false
  /\ Main.remove_non_essential (Main.Build_args false false false "medium" None) = false
  /\ Main.anonymize (Main.Build_args false false false "medium" None) = false
  /\ (dict_get "relationships" example_document = None
      \/ exists rs, dict_get "relationships" example_document = Some (JList rs))
  /\ Main.main Toy.G (Main.Build_args false false false "medium" None)
       (JDict example_document) (Toy.w0 3)
     = (Ok (JDict example_document), Toy.w0 3).
Proof.
  split; [reflexivity|]. split; [reflexivity|]. split; [reflexivity|].
  split; [right; eexists; reflexivity|].
  apply (main_without_flags_identity Toy.G (Main.Build_args false false false "medium" None)
           example_document (Toy.w0 3)); try reflexivity.
  right. eexists. reflexivity.
Defined.

(** ** More on the anonymizer *)

Lemma anonymize_data_seeded
    (G : Generators) (data : json) (level : string) (seed : option Z) (w : Main.world G) :
  Main.anonymize_data G data level seed w = anonymize_seeded G data level (seeded G seed w).
Proof.
  unfold Main.anonymize_data, anonymize_seeded, seeded, Main.seed_random, Main.seed_faker.
  destruct seed as [n|].
  - reflexivity.
  - unfold Main.bind at 1 2.
    destruct (Faker_seed_os G (Main.w_os G w)) as [g os]. reflexivity.
Qed.

(** X7.  On a document without a [datasets] key the anonymizer returns the
    document unchanged at every level; the generators have been seeded all
    the same. *)
Theorem anonymize_data_without_key
    (G : Generators) (d : dict) (level : string) (seed : option Z) (w : Main.world G) :
  dict_get "datasets" d = None ->
  Main.anonymize_data G (JDict d) level seed w = (Ok (JDict d), seeded G seed w).
Proof.
  intros Hget. rewrite anonymize_data_seeded. unfold anonymize_seeded.
  unfold Main.bind, Main.lift. simpl. rewrite Hget. reflexivity.
Qed.

Lemma anonymize_data_without_key_witness :
  dict_get "datasets" [("relationships", JList example_relationships)] = None
  /\ Main.anonymize_data Toy.G (JDict [("relationships", JList example_relationships)])
       "high" (Some 42) (Toy.w0 3)
     = (Ok (JDict [("relationships", JList example_relationships)]),
        Main.Build_world Toy.G 42 42 11).
Proof.
  split; [reflexivity|].
  apply (anonymize_data_without_key Toy.G [("relationships", JList example_relationships)]
           "high" (Some 42) (Toy.w0 3)).
  reflexivity.
Defined.

Section UnknownLevel.

Context (G : Generators) (level : string).
Hypothesis Hlevel : Main.level_recognized level = false.

Lemma anonymize_pair_unknown (key : string) (value : json) (record : dict)
    (w : Main.world G) :
  Main.anonymize_pair G level key value record w = (Ok record, w).
Proof.
  unfold Main.level_recognized in Hlevel.
  apply orb_false_iff in Hlevel. destruct Hlevel as [Hlm Hh].
  apply orb_false_iff in Hlm. destruct Hlm as [Hl Hm].
  unfold Main.anonymize_pair. rewrite Hl, Hm, Hh. reflexivity.
Qed.

Lemma for_items_unknown (items : list (string * json)) (record : dict)
    (w : Main.world G) :
  Main.for_items G level items record w = (Ok record, w).
Proof.
  induction items as [|[key value] items IH]; simpl; [reflexivity|].
  unfold Main.bind. rewrite anonymize_pair_unknown. exact IH.
Qed.

Lemma for_records_unknown (records : list json) (w : Main.world G) :
  forallb is_dict records = true ->
  Main.for_records G level records w = (Ok records, w).
Proof.
  induction records as [|record records IH]; intros Hok; [reflexivity|].
  simpl in Hok. apply andb_true_iff in Hok. destruct Hok as [Hrec Hrest].
  rewrite for_records_cons. destruct record; try discriminate.
  unfold Main.anonymize_record, Main.bind. rewrite for_items_unknown.
  unfold Main.ret. rewrite (IH Hrest). reflexivity.
Qed.

Lemma for_datasets_unknown (datasets : list json) (w : Main.world G) :
  valid_datasets (JList datasets) = true ->
  Main.for_datasets G level datasets w = (Ok datasets, w).
Proof.
  induction datasets as [|dataset datasets IH]; intros Hok; [reflexivity|].
  simpl in Hok. apply andb_true_iff in Hok. destruct Hok as [Hds Hrest].
  rewrite for_datasets_cons. destruct dataset; try discriminate.
  unfold Main.anonymize_dataset, Main.bind. rewrite (for_records_unknown _ _ Hds).
  unfold Main.ret. rewrite (IH Hrest). reflexivity.
Qed.

End UnknownLevel.

(** X8.  Called with a level that is none of low, medium, high, the
    anonymizer still seeds the generators and checks the shape of [datasets],
    then returns the document with every value as it was and draws
    nothing. *)
Theorem anonymize_data_unknown_level_unchanged
    (G : Generators) (d : dict) (v : json) (level : string) (seed : option Z)
    (w : Main.world G) :
  Main.level_recognized level = false ->
  dict_get "datasets" d = Some v ->
  valid_datasets v = true ->
  Main.anonymize_data G (JDict d) level seed w = (Ok (JDict d), seeded G seed w).
Proof.
  intros Hlevel Hget Hvalid. rewrite anonymize_data_seeded. unfold anonymize_seeded.
  unfold Main.bind at 1. unfold Main.lift. simpl. rewrite Hget.
  destruct v as [| | | | |datasets|]; try discriminate.
  unfold Main.bind. rewrite (for_datasets_unknown G level Hlevel datasets _ Hvalid).
  unfold Main.ret. rewrite (dict_set_same _ _ _ Hget). reflexivity.
Qed.

Lemma anonymize_data_unknown_level_unchanged_witness :
  Main.level_recognized "extreme" = false
  /\ dict_get "datasets" [("datasets", example_datasets)] = Some example_datasets
  /\ valid_datasets example_datasets = true
  /\ Main.anonymize_data Toy.G (JDict [("datasets", example_datasets)]) "extreme"
       (Some 42) (Toy.w0 3)
     = (Ok (JDict [("datasets", example_datasets)]), Main.Build_world Toy.G 42 42 11).
Proof.
  split; [reflexivity|]. split; [reflexivity|]. split; [reflexivity|].
  apply (anonymize_data_unknown_level_unchanged Toy.G [("datasets", example_datasets)]
           example_datasets "extreme" (Some 42) (Toy.w0 3)); reflexivity.
Defined.

Lemma pair_post_medium_text (G : Generators) : pair_post G "medium" (medium_text_rel G).
Proof.
  intros key value record w. unfold Main.anonymize_pair, medium_text_rel. simpl.
  unfold Main.bind, Main.fake, Main.random_call, Main.ret.
  destruct (is_str value) eqn:Hstr.
  - repeat match goal with
           | |- context [if ?b then _ else _] => destruct b
           end;
      match goal with
      | |- context [let (_, _) := ?f ?g in _] => destruct (f g) as [s g'] eqn:E
      end;
      assigned (JStr s); intros _; exists (Main.w_faker G w); rewrite E; reflexivity.
  - destruct (is_int value).
    + destruct (random_randint G 0 100 (Main.w_random G w)) as [n g'].
      assigned (JInt n). intros; congruence.
    + untouched. intros; congruence.
Qed.

(** X9.  At level medium, on datasets of the checked shape, every text is
    replaced by the synthetic text of exactly one kind: the first of name,
    email, phone, address, city that the lower-cased key contains, and a
    synthetic word when it contains none. *)
Theorem anonymize_data_medium_text_first_match
    (G : Generators) (d : dict) (v : json) (seed : option Z) (w : Main.world G) :
  dict_get "datasets" d = Some v ->
  valid_datasets v = true -> records_wf v = true ->
  exists v' w',
    Main.anonymize_data G (JDict d) "medium" seed w
    = (Ok (JDict (dict_set "datasets" v' d)), w')
    /\ datasets_rel (medium_text_rel G) v v'.
Proof.
  intros Hget Hvalid Hwf.
  exact (anonymize_data_rel G "medium" (medium_text_rel G) d v seed w
           (pair_post_medium_text G) Hget Hvalid Hwf).
Qed.

Lemma anonymize_data_medium_text_first_match_witness :
  dict_get "datasets" [("datasets", example_datasets)] = Some example_datasets
  /\ valid_datasets example_datasets = true
  /\ records_wf example_datasets = true
  /\ exists v' w',
       Main.anonymize_data Toy.G (JDict [("datasets", example_datasets)]) "medium"
         (Some 42) (Toy.w0 3)
       = (Ok (JDict (dict_set "datasets" v' [("datasets", example_datasets)])), w')
       /\ datasets_rel (medium_text_rel Toy.G) example_datasets v'.
Proof.
  split; [reflexivity|]. split; [reflexivity|]. split; [reflexivity|].
  apply (anonymize_data_medium_text_first_match Toy.G [("datasets", example_datasets)]
           example_datasets (Some 42) (Toy.w0 3)); reflexivity.
Defined.

(** ** What the results depend on *)

Section GeneratorsOnly.

Context (G : Generators).

Lemma generators_only_ret {A : Type} (a : A) : generators_only G (Main.ret G a).
Proof. intros w1 w2 H. split; [reflexivity | exact H]. Qed.

Lemma generators_only_raise {A : Type} (e : exn) :
  generators_only G (@Main.raise G A e).
Proof. intros w1 w2 H. split; [reflexivity | exact H]. Qed.

Lemma generators_only_lift {A : Type} (r : result A) : generators_only G (Main.lift G r).
Proof. intros w1 w2 H. split; [reflexivity | exact H]. Qed.

Lemma generators_only_bind {A B : Type} (m : Main.M G A) (k : A -> Main.M G B) :
  generators_only G m -> (forall a, generators_only G (k a)) ->
  generators_only G (Main.bind G m k).
Proof.
  intros Hm Hk w1 w2 H. unfold Main.bind.
  destruct (Hm w1 w2 H) as [Hfst Hsnd].
  destruct (m w1) as [[a1|e1] w1'], (m w2) as [[a2|e2] w2']; simpl in *;
    try discriminate.
  - injection Hfst as ->. exact (Hk a2 w1' w2' Hsnd).
  - injection Hfst as ->. split; [reflexivity | exact Hsnd].
Qed.

Lemma generators_only_fake {A : Type} (f : fgen G -> A * fgen G) :
  generators_only G (Main.fake G f).
Proof.
  intros w1 w2 [Hr Hf]. unfold Main.fake. rewrite Hf.
  destruct (f (Main.w_faker G w2)) as [a g]. simpl.
  split; [reflexivity | split; [exact Hr | reflexivity]].
Qed.

Lemma generators_only_random_call {A : Type} (f : rng G -> A * rng G) :
  generators_only G (Main.random_call G f).
Proof.
  intros w1 w2 [Hr Hf]. unfold Main.random_call. rewrite Hr.
  destruct (f (Main.w_random G w2)) as [a g]. simpl.
  split; [reflexivity | split; [reflexivity | exact Hf]].
Qed.

Ltac generators_only_step :=
  first [ apply generators_only_ret
        | apply generators_only_raise
        | apply generators_only_lift
        | apply generators_only_fake
        | apply generators_only_random_call
        | apply generators_only_bind; [|intros ?] ].

Lemma generators_only_anonymize_pair (level key : string) (value : json) (record : dict) :
  generators_only G (Main.anonymize_pair G level key value record).
Proof.
  unfold Main.anonymize_pair.
  repeat match goal with
         | |- context [if ?b then _ else _] => destruct b
         end;
    repeat generators_only_step.
Qed.

Lemma generators_only_for_items (level : string) (items : list (string * json)) :
  forall record, generators_only G (Main.for_items G level items record).
Proof.
  induction items as [|[key value] items IH]; intros record; simpl.
  - apply generators_only_ret.
  - apply generators_only_bind; [apply generators_only_anonymize_pair | intros; apply IH].
Qed.

Lemma generators_only_for_records (level : string) (records : list json) :
  generators_only G (Main.for_records G level records).
Proof.
  induction records as [|record records IH]; simpl.
  - apply generators_only_ret.
  - apply generators_only_bind.
    + unfold Main.anonymize_record. destruct record; try apply generators_only_raise.
      apply generators_only_bind; [apply generators_only_for_items|].
      intros; apply generators_only_ret.
    + intros. apply generators_only_bind; [exact IH | intros; apply generators_only_ret].
Qed.

Lemma generators_only_for_datasets (level : string) (datasets : list json) :
  generators_only G (Main.for_datasets G level datasets).
Proof.
  induction datasets as [|dataset datasets IH]; simpl.
  - apply generators_only_ret.
  - apply generators_only_bind.
    + unfold Main.anonymize_dataset. destruct dataset; try apply generators_only_raise.
      apply generators_only_bind; [apply generators_only_for_records|].
      intros; apply generators_only_ret.
    + intros. apply generators_only_bind; [exact IH | intros; apply generators_only_ret].
Qed.

Lemma generators_only_anonymize_seeded (data : json) (level : string) :
  generators_only G (anonymize_seeded G data level).
Proof.
  unfold anonymize_seeded.
  apply generators_only_bind; [apply generators_only_lift|].
  intros [[| | | | |datasets|]|];
    try apply generators_only_raise; try apply generators_only_ret.
  apply generators_only_bind; [apply generators_only_for_datasets|].
  intros. destruct data; apply generators_only_ret.
Qed.

End GeneratorsOnly.

Lemma anonymize_data_same_seed
    (G : Generators) (data : json) (level : string) (n : Z) (w1 w2 : Main.world G) :
  fst (Main.anonymize_data G data level (Some n) w1)
  = fst (Main.anonymize_data G data level (Some n) w2)
  /\ same_generators G (snd (Main.anonymize_data G data level (Some n) w1))
                       (snd (Main.anonymize_data G data level (Some n) w2)).
Proof.
  rewrite !anonymize_data_seeded.
  apply generators_only_anonymize_seeded. split; reflexivity.
Qed.

(** X10.  With an integer seed the anonymizer is reproducible: what it
    returns or raises, and the states it leaves the two generators in, are the
    same whatever state the generators and the entropy were in before the
    call. *)
Theorem anonymize_data_reproducible_with_seed
    (G : Generators) (data : json) (level : string) (n : Z) (w1 w2 : Main.world G) :
  fst (Main.anonymize_data G data level (Some n) w1)
  = fst (Main.anonymize_data G data level (Some n) w2)
  /\ same_generators G (snd (Main.anonymize_data G data level (Some n) w1))
                       (snd (Main.anonymize_data G data level (Some n) w2)).
Proof.
  exact (anonymize_data_same_seed G data level n w1 w2).
Qed.

Lemma simplify_relationships_no_filter
    (G : Generators) (data : json) (rr : bool) :
  exists r, forall w : Main.world G,
    Main.simplify_relationships G data rr false w = (r, w).
Proof.
  unfold Main.simplify_relationships.
  destruct data as [| | | | | |d]; try (eexists; intros w; reflexivity).
  destruct (dict_get "relationships" d) as [[| | | | |rs|]|];
    try (eexists; intros w; reflexivity).
  unfold Main.bind, Main.lift, Main.ret. destruct rr.
  - destruct (remove_duplicates [] rs); eexists; intros w; reflexivity.
  - eexists; intros w; reflexivity.
Qed.

(** X11.  Without [--remove-non-essential], and with either no
    [--anonymize-data] or an integer [--seed], the whole pipeline is
    reproducible: what the driver hands to [save_data], or the exception it
    stops on, is the same in every run on the same document. *)
Theorem main_reproducible_without_filter
    (G : Generators) (a : Main.args) (data : json) (w1 w2 : Main.world G) :
  Main.remove_non_essential a = false ->
  Main.anonymize a = false \/ (exists n, Main.seed a = Some n) ->
  fst (Main.main G a data w1) = fst (Main.main G a data w2).
Proof.
  intros Hrne Hseed. unfold Main.main. rewrite Hrne.
  destruct (Main.anonymize a && negb (Main.level_recognized (Main.anonymization_level a)))%bool;
    [reflexivity|].
  destruct (simplify_relationships_no_filter G data (Main.remove_redundant a)) as [r Hr].
  unfold Main.bind. rewrite !Hr.
  destruct r as [sd|e]; [|reflexivity].
  destruct (Main.anonymize a) eqn:Han; [|reflexivity].
  destruct Hseed as [Hno | [n Hn]]; [discriminate|].
  rewrite Hn. apply anonymize_data_same_seed.
Qed.

Lemma main_reproducible_without_filter_witness :
  Main.remove_non_essential (Main.Build_args true false true "medium" (Some 42)) = false
  /\ (Main.anonymize (Main.Build_args true false true "medium" (Some 42)) = false
      \/ exists n, Main.seed (Main.Build_args true false true "medium" (Some 42)) = Some n)
  /\ fst (Main.main Toy.G (Main.Build_args true false true "medium" (Some 42))
            (JDict [("relationships", JList example_relationships);
                    ("datasets", example_datasets)])
            (Toy.w0 3))
     = fst (Main.main Toy.G (Main.Build_args true false true "medium" (Some 42))
              (JDict [("relationships", JList example_relationships);
                      ("datasets", example_datasets)])
              (Main.Build_world Toy.G 5 9 13)).
Proof.
  split; [reflexivity|]. split; [right; eexists; reflexivity|].
  apply (main_reproducible_without_filter Toy.G
           (Main.Build_args true false true "medium" (Some 42))).
  - reflexivity.
  - right. eexists. reflexivity.
Defined.

Section HighForgets.

Context (G : Generators).

Lemma anonymize_pair_high_run (key : string) (value : json) (record : dict)
    (w : Main.world G) :
  Main.anonymize_pair G "high" key value record w
  = (Ok (dict_set key (JStr (fst (fake_uuid4 G (Main.w_faker G w)))) record),
     Main.Build_world G (Main.w_random G w) (snd (fake_uuid4 G (Main.w_faker G w)))
       (Main.w_os G w)).
Proof.
  unfold Main.anonymize_pair. simpl. unfold Main.bind, Main.fake, Main.ret.
  destruct (fake_uuid4 G (Main.w_faker G w)) as [s g]. reflexivity.
Qed.

Lemma for_items_high_same (items1 : list (string * json)) :
  forall items2 done1 done2 (w : Main.world G),
    dict_keys items2 = dict_keys items1 ->
    NoDup (dict_keys (done1 ++ items1)) ->
    NoDup (dict_keys (done2 ++ items2)) ->
    exists out w',
      Main.for_items G "high" items1 (done1 ++ items1) w = (Ok (done1 ++ out), w')
      /\ Main.for_items G "high" items2 (done2 ++ items2) w = (Ok (done2 ++ out), w').
Proof.
  induction items1 as [|[key v1] items1 IH]; intros [|[key2 v2] items2] done1 done2 w Hk H1 H2;
    try discriminate.
  - exists [], w. split; reflexivity.
  - simpl in Hk. injection Hk as -> Hk. simpl Main.for_items.
    unfold Main.bind. rewrite !anonymize_pair_high_run.
    set (s := fst (fake_uuid4 G (Main.w_faker G w))).
    set (w1 := Main.Build_world G _ _ _).
    assert (Hn1 : ~ In key (dict_keys done1)).
    { unfold dict_keys in *. rewrite map_app in H1. simpl in H1.
      apply NoDup_remove_2 in H1. intros Hin. apply H1. apply in_or_app. left. exact Hin. }
    assert (Hn2 : ~ In key (dict_keys done2)).
    { unfold dict_keys in *. rewrite map_app in H2. simpl in H2.
      apply NoDup_remove_2 in H2. intros Hin. apply H2. apply in_or_app. left. exact Hin. }
    rewrite (dict_set_middle key v1 (JStr s) done1 items1 Hn1).
    rewrite (dict_set_middle key v2 (JStr s) done2 items2 Hn2).
    destruct (IH items2 (done1 ++ [(key, JStr s)]) (done2 ++ [(key, JStr s)]) w1 Hk)
      as [out [w' [R1 R2]]].
    { unfold dict_keys in *. rewrite <- app_assoc. simpl.
      rewrite map_app in *. simpl in *. exact H1. }
    { unfold dict_keys in *. rewrite <- app_assoc. simpl.
      rewrite map_app in *. simpl in *. exact H2. }
    rewrite <- !app_assoc in R1, R2. simpl in R1, R2.
    exists ((key, JStr s) :: out), w'. split; [exact R1 | exact R2].
Qed.

Lemma for_records_high_same (rs1 rs2 : list json) :
  Forall2 (record_rel (fun _ _ _ => True)) rs1 rs2 ->
  forallb record_ok rs1 = true ->
  forall w : Main.world G, exists out w',
    Main.for_records G "high" rs1 w = (Ok out, w')
    /\ Main.for_records G "high" rs2 w = (Ok out, w').
Proof.
  induction 1 as [|r1 r2 rs1 rs2 [d1 [d2 [-> [-> Hd]]]] _ IH]; intros Hok w.
  - exists [], w. split; reflexivity.
  - simpl in Hok. apply andb_true_iff in Hok. destruct Hok as [Hwf Hrest].
    pose proof (pair_rel_keys _ _ _ Hd) as Hkeys.
    destruct (for_items_high_same d1 d2 [] [] w Hkeys) as [out [w1 [R1 R2]]].
    { simpl. apply keys_distinct_NoDup. exact Hwf. }
    { simpl. rewrite Hkeys. apply keys_distinct_NoDup. exact Hwf. }
    simpl in R1, R2.
    destruct (IH Hrest w1) as [outs [w' [S1 S2]]].
    exists (JDict out :: outs), w'. rewrite !for_records_cons.
    unfold Main.anonymize_record, Main.bind, Main.ret. rewrite R1, R2, S1, S2.
    split; reflexivity.
Qed.

Lemma for_datasets_high_same (dss1 dss2 : list json) :
  Forall2 (dataset_rel (fun _ _ _ => True)) dss1 dss2 ->
  forallb dataset_ok dss1 = true ->
  forall w : Main.world G, exists out w',
    Main.for_datasets G "high" dss1 w = (Ok out, w')
    /\ Main.for_datasets G "high" dss2 w = (Ok out, w').
Proof.
  induction 1 as [|ds1 ds2 dss1 dss2 [rs1 [rs2 [-> [-> Hrs]]]] _ IH]; intros Hok w.
  - exists [], w. split; reflexivity.
  - simpl in Hok. apply andb_true_iff in Hok. destruct Hok as [Hds Hrest].
    destruct (for_records_high_same rs1 rs2 Hrs Hds w) as [out [w1 [R1 R2]]].
    destruct (IH Hrest w1) as [outs [w' [S1 S2]]].
    exists (JList out :: outs), w'. rewrite !for_datasets_cons.
    unfold Main.anonymize_dataset, Main.bind, Main.ret. rewrite R1, R2, S1, S2.
    split; reflexivity.
Qed.

End HighForgets.

(** X12.  Level high keeps nothing of the values: two documents whose
    datasets have the same datasets, records and keys, whatever their values,
    come out of the anonymizer with the same [datasets], when the generators
    start alike (as they do with the same integer seed). *)
Theorem anonymize_data_high_forgets_values
    (G : Generators) (d1 d2 : dict) (v1 v2 : json) (seed : option Z) (w : Main.world G) :
  dict_get "datasets" d1 = Some v1 ->
  dict_get "datasets" d2 = Some v2 ->
  valid_datasets v1 = true -> records_wf v1 = true ->
  same_shape v1 v2 ->
  exists v' w',
    Main.anonymize_data G (JDict d1) "high" seed w
    = (Ok (JDict (dict_set "datasets" v' d1)), w')
    /\ Main.anonymize_data G (JDict d2) "high" seed w
       = (Ok (JDict (dict_set "datasets" v' d2)), w').
Proof.
  intros Hg1 Hg2 Hvalid Hwf [dss1 [dss2 [-> [-> Hall]]]].
  destruct (datasets_ok_split _ Hvalid Hwf) as [dss [Heq Hok]].
  injection Heq as <-.
  rewrite !anonymize_data_seeded. unfold anonymize_seeded.
  unfold Main.bind at 1 3. unfold Main.lift. simpl. rewrite Hg1, Hg2.
  destruct (for_datasets_high_same G dss1 dss2 Hall Hok (seeded G seed w))
    as [out [w' [R1 R2]]].
  exists (JList out), w'. unfold Main.bind, Main.ret. rewrite R1, R2.
  split; reflexivity.
Qed.

Lemma anonymize_data_high_forgets_values_witness :
  dict_get "datasets" [("datasets", JList [JList [JDict [("name", JStr "Alice"); ("age", JInt 30)]]])]
  = Some (JList [JList [JDict [("name", JStr "Alice"); ("age", JInt 30)]]])
  /\ dict_get "datasets" [("datasets", JList [JList [JDict [("name", JNull); ("age", JStr "x")]]])]
     = Some (JList [JList [JDict [("name", JNull); ("age", JStr "x")]]])
  /\ valid_datasets (JList [JList [JDict [("name", JStr "Alice"); ("age", JInt 30)]]]) = true
  /\ records_wf (JList [JList [JDict [("name", JStr "Alice"); ("age", JInt 30)]]]) = true
  /\ exists v' w',
       Main.anonymize_data Toy.G
         (JDict [("datasets", JList [JList [JDict [("name", JStr "Alice"); ("age", JInt 30)]]])])
         "high" (Some 42) (Toy.w0 3)
       = (Ok (JDict (dict_set "datasets" v'
                       [("datasets", JList [JList [JDict [("name", JStr "Alice"); ("age", JInt 30)]]])])),
          w')
       /\ Main.anonymize_data Toy.G
            (JDict [("datasets", JList [JList [JDict [("name", JNull); ("age", JStr "x")]]])])
            "high" (Some 42) (Toy.w0 3)
          = (Ok (JDict (dict_set "datasets" v'
                          [("datasets", JList [JList [JDict [("name", JNull); ("age", JStr "x")]]])])),
             w').
Proof.
  split; [reflexivity|]. split; [reflexivity|]. split; [reflexivity|]. split; [reflexivity|].
  apply (anonymize_data_high_forgets_values Toy.G
           [("datasets", JList [JList [JDict [("name", JStr "Alice"); ("age", JInt 30)]]])]
           [("datasets", JList [JList [JDict [("name", JNull); ("age", JStr "x")]]])]
           (JList [JList [JDict [("name", JStr "Alice"); ("age", JInt 30)]]])
           (JList [JList [JDict [("name", JNull); ("age", JStr "x")]]])
           (Some 42) (Toy.w0 3)); try reflexivity.
  eexists _, _. split; [reflexivity|]. split; [reflexivity|].
  constructor; [|constructor].
  eexists _, _. split; [reflexivity|]. split; [reflexivity|].
  constructor; [|constructor].
  eexists _, _. split; [reflexivity|]. split; [reflexivity|].
  repeat constructor.
Defined.

